(** * WebSocket transport core of the OpAMP client

    A shallow embedding of [client/wsclient.go] (the connection supervisor)
    and of the receiver loop of [internal.WSReceiver], together with the
    properties the specification states about them.

    Conventions.
    - Go [int] and [time.Duration] values are [Z].
    - A Go map is [option (gmap K V)]: [None] is the nil map, on which a
      read finds nothing and an assignment panics.
    - A method that mutates the client and calls user callbacks or the
      logger is a computation in the monad [M]: it threads the [wsClient]
      and accumulates the list of observable events, in program order.
    - What the environment decides (the outcome of a dial, which case of a
      [select] is ready, the value returned by [NextBackOff]) is an input
      of the embedded function. *)

From stdpp Require Import gmap strings list.
From Stdlib Require Import ZArith Lia.

Open Scope Z_scope.

(* ===================================================================== *)
(** * Data model *)
(* ===================================================================== *)

(** [url.URL], restricted to the parts the client inspects or prints. *)
Record URL := mkURL { Scheme : string; Host : string; Path : string }.

Definition URL_String (u : URL) : string :=
  (Scheme u +:+ "://" +:+ Host u +:+ Path u)%string.

Definition set_Scheme (s : string) (u : URL) : URL :=
  {| Scheme := s; Host := Host u; Path := Path u |}.

(** Go [error] values that the client produces or tells apart. *)
Inductive error :=
| ErrorString (msg : string)                 (* errors.New / opaque failure *)
| ContextCanceled                            (* context.Canceled *)
| UrlError (Op URL_ : string) (Err : error)  (* *url.Error *)
| CloseError (Code : Z) (Text : string)      (* *websocket.CloseError *)
| WrapError (msg : string) (Err : error).    (* fmt.Errorf with %w *)

(** [errors.Is(err, context.Canceled)]: follows the [Unwrap] chain. *)
Fixpoint errors_Is_Canceled (err : error) : bool :=
  match err with
  | ContextCanceled => true
  | UrlError _ _ e => errors_Is_Canceled e
  | WrapError _ e => errors_Is_Canceled e
  | _ => false
  end.

Definition CloseNormalClosure : Z := 1000.

(** [websocket.IsCloseError(err, codes...)]: a type assertion on the error
    itself (no unwrapping), then a search of the code. *)
Definition IsCloseError (err : error) (codes : list Z) : bool :=
  match err with
  | CloseError code _ => existsb (Z.eqb code) codes
  | _ => false
  end.

(** [sharedinternal.OptionalDuration]. *)
Record OptionalDuration := mkOptionalDuration { Duration : Z; Defined : bool }.

Definition NoDuration : OptionalDuration := {| Duration := 0; Defined := false |}.

(** [http.Request]: the URL and the rest of the request, which [Clone]
    copies. *)
Record Request := mkRequest { ReqURL : URL; ReqMethod : string }.

Definition Request_Clone (r : Request) : Request := r.

Definition set_ReqURL (u : URL) (r : Request) : Request :=
  {| ReqURL := u; ReqMethod := ReqMethod r |}.

(** [http.Response], as seen by the client: the status, the request that
    produced it, the result of [resp.Location()] and the result of
    [sharedinternal.ExtractRetryAfterHeader(resp)]. *)
Record Response := mkResponse {
  StatusCode : Z;
  Status : string;
  RespRequest : Request;
  Location : URL + error;
  RetryAfterHeader : OptionalDuration;
}.

Definition ExtractRetryAfterHeader (resp : Response) : OptionalDuration :=
  RetryAfterHeader resp.

Inductive Logger := NopLogger | UserLogger (name : string).

(** Arguments of a formatted log call. *)
Inductive arg :=
| ArgInt (n : Z)
| ArgStr (s : string)
| ArgErr (e : error)
| ArgURL (u : URL).

(** [types.InstanceUid]: an opaque comparable key. *)
Definition InstanceUid := string.

(** [internal.WSSender]: one per agent, created by [internal.NewSender]. *)
Record WSSender := mkWSSender { senderLogger : Logger }.

Definition NewSender (logger : Logger) : WSSender := {| senderLogger := logger |}.

(** [websocket.Conn], identified by the dial that produced it. *)
Record Conn := mkConn { connId : Z }.

(** The callbacks of [types.Callbacks] that the supervisor consumes.
    [CheckRedirect] is optional (a nil func field); it returns an error to
    reject the redirect. [OnRestartRequested] returns the error of the
    user's handler. *)
Record Callbacks := mkCallbacks {
  CheckRedirect : option (Request -> list Request -> list Response -> option error);
  OnRestartRequested : option error;
}.

(** [types.Agent], restricted to what [PrepareStart] reads. *)
Record Agent := mkAgent { AgentInstanceUid : InstanceUid; AgentDescription : string }.

(** Per-agent record held by the common client ([c.common.Agents]). *)
Record AgentState := mkAgentState { Sender : option WSSender; Description : string; Healthy : bool }.

(** [internal.ClientCommon], restricted to the fields the WebSocket client
    reads. *)
Record ClientCommon := mkClientCommon {
  CLogger : Logger;
  CCallbacks : Callbacks;
  Agents : option (gmap InstanceUid AgentState);
}.

(** [types.StartSettings], restricted to what the embedded code reads.
    [SAgents] is a slice of pointers: [None] is a nil entry. *)
Record StartSettings := mkStartSettings {
  OpAMPServerURL : string;
  SAgents : list (option Agent);
}.

(** [wsClient]. [url] is a pointer in the source, set by [Start] before any
    connection attempt runs; the empty URL stands for the pointer before
    that. *)
Record wsClient := mkWsClient {
  common : ClientCommon;
  url : URL;
  conn : option Conn;
  senders : option (gmap InstanceUid WSSender);
  lastInternalErr : option error;
  connShutdownTimeout : Z;
  responseChain : list Response;
}.

Definition set_url (u : URL) (c : wsClient) : wsClient :=
  {| common := common c; url := u; conn := conn c; senders := senders c;
     lastInternalErr := lastInternalErr c;
     connShutdownTimeout := connShutdownTimeout c;
     responseChain := responseChain c |}.

Definition set_conn (k : option Conn) (c : wsClient) : wsClient :=
  {| common := common c; url := url c; conn := k; senders := senders c;
     lastInternalErr := lastInternalErr c;
     connShutdownTimeout := connShutdownTimeout c;
     responseChain := responseChain c |}.

Definition set_senders (m : option (gmap InstanceUid WSSender)) (c : wsClient) : wsClient :=
  {| common := common c; url := url c; conn := conn c; senders := m;
     lastInternalErr := lastInternalErr c;
     connShutdownTimeout := connShutdownTimeout c;
     responseChain := responseChain c |}.

Definition set_common (cc : ClientCommon) (c : wsClient) : wsClient :=
  {| common := cc; url := url c; conn := conn c; senders := senders c;
     lastInternalErr := lastInternalErr c;
     connShutdownTimeout := connShutdownTimeout c;
     responseChain := responseChain c |}.

Definition set_lastInternalErr (e : option error) (c : wsClient) : wsClient :=
  {| common := common c; url := url c; conn := conn c; senders := senders c;
     lastInternalErr := e;
     connShutdownTimeout := connShutdownTimeout c;
     responseChain := responseChain c |}.

Definition set_responseChain (l : list Response) (c : wsClient) : wsClient :=
  {| common := common c; url := url c; conn := conn c; senders := senders c;
     lastInternalErr := lastInternalErr c;
     connShutdownTimeout := connShutdownTimeout c;
     responseChain := l |}.

(** [protobufs.ServerToAgent], restricted to the flags bit-set; the other
    payload fields are opaque to this development. *)
Record ServerToAgent := mkServerToAgent { Flags : Z; Payload : string }.

(** Observable events of a goroutine, in program order: calls of user
    callbacks and of the logger, and operations on timers, contexts,
    channels and the connection. *)
Inductive event :=
| Dial (urlStr : string)
| OnConnect
| OnConnectFailed (err : error)
| CheckRedirectCall (req : Request) (via : list Request) (resps : list Response)
| Errorf (format : string) (args : list arg)
| Debugf (format : string) (args : list arg)
| NewTimer (d : Z)
| TimerStop
(* received-message processor *)
| OnRestartRequestedCall
| DispatchPayload (payload : string)
(* receiver loop *)
| CloseReceiverStopped               (* close(r.stopped) *)
(* cycle runner *)
| PrepareFirstMessageCall
| SenderStart (id : InstanceUid) (k : option Conn)
| ReceiverStart (id : InstanceUid) (k : option Conn)
| GoCoordinator (id : InstanceUid)   (* go func() { ... }() *)
| StopSender                         (* stopSender() *)
| StopReceiver                       (* stopReceiver() *)
| ConnClose (k : option Conn).       (* c.conn.Close() *)

(* ===================================================================== *)
(** * The client monad: state passing plus an event log *)
(* ===================================================================== *)

Definition M (A : Type) : Type := wsClient -> A * wsClient * list event.

Definition ret {A} (a : A) : M A := fun c => (a, c, []).

Definition bind {A B} (m : M A) (f : A -> M B) : M B :=
  fun c =>
    let '(a, c1, t1) := m c in
    let '(b, c2, t2) := f a c1 in
    (b, c2, t1 ++ t2).

Definition emit (e : event) : M unit := fun c => (tt, c, [e]).

Definition get : M wsClient := fun c => (c, c, []).

Definition modify (f : wsClient -> wsClient) : M unit := fun c => (tt, f c, []).

Definition when (b : bool) (m : M unit) : M unit := if b then m else ret tt.

Notation "x <~ m ;; k" := (bind m (fun x => k))
  (at level 100, m at next level, right associativity).
Notation "m ;;; k" := (bind m (fun _ => k))
  (at level 100, right associativity).

Definition result_of {A} (r : A * wsClient * list event) : A := fst (fst r).
Definition state_of {A} (r : A * wsClient * list event) : wsClient := snd (fst r).
Definition trace_of {A} (r : A * wsClient * list event) : list event := snd r.

(* ===================================================================== *)
(** * Redirects and a single connection attempt *)
(* ===================================================================== *)

Definition viaReq (resps : list Response) : list Request :=
  map RespRequest resps.

(** The scheme rewrite at the end of [handleRedirect]. *)
Definition rewriteScheme (redirect : URL) : URL :=
  if String.eqb (Scheme redirect) "http" then set_Scheme "ws" redirect
  else if String.eqb (Scheme redirect) "https" then set_Scheme "wss" redirect
  else redirect.

(** [handleRedirect]; the result is the returned error ([None] is nil). *)
Definition handleRedirect (resp : Response) : M (option error) :=
  modify (fun c => set_responseChain (responseChain c ++ [resp]) c) ;;;
  match Location resp with
  | inr err =>
      emit (Errorf "%d redirect, but no valid location: %s"
                   [ArgInt (StatusCode resp); ArgErr err]) ;;;
      ret (Some err)
  | inl redirect =>
      let nextRequest := set_ReqURL redirect (Request_Clone (RespRequest resp)) in
      c <~ get ;;
      rejected <~
        match CheckRedirect (CCallbacks (common c)) with
        | Some check =>
            emit (CheckRedirectCall nextRequest (viaReq (responseChain c))
                                    (responseChain c)) ;;;
            ret (check nextRequest (viaReq (responseChain c)) (responseChain c))
        | None => ret None
        end ;;
      match rejected with
      | Some err =>
          ret (Some (UrlError "Get" (URL_String (ReqURL nextRequest)) err))
      | None =>
          let redirect := rewriteScheme redirect in
          emit (Debugf "%d redirect to %s"
                       [ArgInt (StatusCode resp); ArgURL redirect]) ;;;
          modify (set_url redirect) ;;;
          ret None
      end
  end.

(** What one call of [c.dialer.DialContext] returns. *)
Inductive dial_outcome :=
| DialOk (k : Conn)
| DialFail (err : error) (resp : option Response).

(** The environment of one connection attempt: the dial outcome and the
    value of [c.common.IsStopping()] at each of its two reads (after the
    dial, and in the deferred function). *)
Record attempt := mkAttempt {
  dial : dial_outcome;
  stoppingAfterDial : bool;
  stoppingAtDefer : bool;
}.

Definition is3xx (status : Z) : bool := (300 <=? status) && (status <? 400).

(** Body of [tryConnectOnce] up to its [return]: the named results
    [retryAfter] and [err], and the local [redirecting]. *)
Definition tryConnectOnce_body (a : attempt)
  : M (OptionalDuration * option error * bool) :=
  c <~ get ;;
  emit (Dial (URL_String (url c))) ;;;
  match dial a with
  | DialFail err resp =>
      when (negb (stoppingAfterDial a)) (emit (OnConnectFailed err)) ;;;
      match resp with
      | Some resp =>
          let duration := ExtractRetryAfterHeader resp in
          if is3xx (StatusCode resp) then
            herr <~ handleRedirect resp ;;
            match herr with
            | Some herr => ret (duration, Some herr, true)
            | None => ret (duration, Some err, true)
            end
          else
            emit (Errorf "Server responded with status=%v" [ArgStr (Status resp)]) ;;;
            ret (duration, Some err, false)
      | None => ret (NoDuration, Some err, false)
      end
  | DialOk k =>
      modify (set_conn (Some k)) ;;;
      emit OnConnect ;;;
      ret (NoDuration, None, false)
  end.

(** The deferred function of [tryConnectOnce]. *)
Definition tryConnectOnce_deferred (a : attempt) (err : option error)
  (redirecting : bool) : M unit :=
  match err with
  | Some err =>
      if negb redirecting then
        modify (set_responseChain []) ;;;
        when (negb (stoppingAtDefer a)) (emit (OnConnectFailed err))
      else ret tt
  | None => ret tt
  end.

Definition tryConnectOnce (a : attempt) : M (OptionalDuration * option error) :=
  r <~ tryConnectOnce_body a ;;
  let '(retryAfter, err, redirecting) := r in
  tryConnectOnce_deferred a err redirecting ;;;
  ret (retryAfter, err).

(* ===================================================================== *)
(** * Connecting with backoff *)
(* ===================================================================== *)

(** Which case of the [select] in [ensureConnected] is taken: the timer
    fires and an attempt is made, or the context is done first and
    [ctx.Err()] is returned. *)
Inductive select_ready :=
| TimerFired (a : attempt)
| CtxDone (err : error).

(** The environment of one iteration of the loop: the value returned by
    [infiniteBackoff.NextBackOff()] and the case of the [select]. *)
Record iteration := mkIteration {
  nextBackOff : Z;
  ready : select_ready;
}.

(** A loop either returns or is still waiting for its environment. *)
Inductive loop_result :=
| Blocked
| Returned (err : option error).

Fixpoint ensureConnected_loop (its : list iteration) (interval : Z) : M loop_result :=
  match its with
  | [] => ret Blocked
  | it :: its =>
      emit (NewTimer interval) ;;;
      let interval := nextBackOff it in
      match ready it with
      | TimerFired a =>
          r <~ tryConnectOnce a ;;
          let '(retryAfter, err) := r in
          match err with
          | Some err =>
              modify (set_lastInternalErr (Some err)) ;;;
              if errors_Is_Canceled err then
                emit (Debugf "Client is stopped, will not try anymore." []) ;;;
                ret (Returned (Some err))
              else
                emit (Errorf "Connection failed (%v), will retry." [ArgErr err]) ;;;
                let interval :=
                  if Defined retryAfter && (Duration retryAfter >? interval)
                  then Duration retryAfter else interval in
                ensureConnected_loop its interval
          | None => ret (Returned None)
          end
      | CtxDone err =>
          emit (Debugf "Client is stopped, will not try anymore." []) ;;;
          emit TimerStop ;;;
          ret (Returned (Some err))
      end
  end.

Definition ensureConnected (its : list iteration) : M loop_result :=
  ensureConnected_loop its 0.

(** ** Observations on event logs *)

(** Durations of the timers armed, in order: the waits before the
    attempts. *)
Definition timers (t : list event) : list Z :=
  omap (fun e => match e with NewTimer d => Some d | _ => None end) t.

(** Errors passed to [OnConnectFailed], in order. *)
Definition connectFailedCalls (t : list event) : list error :=
  omap (fun e => match e with OnConnectFailed err => Some err | _ => None end) t.

(** Response chains passed to [CheckRedirect], in order. *)
Definition checkRedirectChains (t : list event) : list (list Response) :=
  omap (fun e => match e with CheckRedirectCall _ _ resps => Some resps | _ => None end) t.

(** URLs dialled, in order. *)
Definition dialled (t : list event) : list string :=
  omap (fun e => match e with Dial u => Some u | _ => None end) t.

(** The wait the specification prescribes after a failed attempt: the
    backoff interval, or the larger of it and the server's hint. *)
Definition wait_after (nb : Z) (retryAfter : OptionalDuration) : Z :=
  if Defined retryAfter then Z.max nb (Duration retryAfter) else nb.

(** The attempts of a run that failed and were followed by a retry, each
    with the backoff interval drawn before it and the retry-after hint it
    returned. *)
Fixpoint failed_attempts (its : list iteration) (c : wsClient)
  : list (Z * OptionalDuration) :=
  match its with
  | [] => []
  | it :: its =>
      match ready it with
      | TimerFired a =>
          let r := tryConnectOnce a c in
          match snd (result_of r) with
          | Some err =>
              if errors_Is_Canceled err then []
              else (nextBackOff it, fst (result_of r))
                     :: failed_attempts its (set_lastInternalErr (Some err) (state_of r))
          | None => []
          end
      | CtxDone _ => []
      end
  end.

(* ===================================================================== *)
(** * Construction and PrepareStart *)
(* ===================================================================== *)

(** Operations of [internal.ClientCommon] that the WebSocket client calls
    and whose code lives outside the files embedded here. They are the
    interface the supervisor is written against. *)
Class ClientCommonOps := {
  NewClientCommon : Logger -> ClientCommon;
  common_SetAgentDescription : InstanceUid -> string -> ClientCommon -> ClientCommon;
  common_SetHealth : InstanceUid -> bool -> ClientCommon -> ClientCommon;
  common_PrepareStart : StartSettings -> ClientCommon -> ClientCommon * option error;
}.

(** A Go call either returns or panics. *)
Inductive panic :=
| AssignmentToEntryInNilMap
| NilPointerDereference.

Inductive go_result (A : Type) :=
| Normal (a : A)
| Panic (p : panic).
Arguments Normal {A} a.
Arguments Panic {A} p.

Definition defaultShutdownTimeout : Z := 5 * 1000000000.

Definition set_AgentSender (s : WSSender) (a : AgentState) : AgentState :=
  {| Sender := Some s; Description := Description a; Healthy := Healthy a |}.

Definition set_Agents (m : option (gmap InstanceUid AgentState)) (cc : ClientCommon)
  : ClientCommon :=
  {| CLogger := CLogger cc; CCallbacks := CCallbacks cc; Agents := m |}.

Section Construction.
Context `{ClientCommonOps}.

(** [NewWebSocket]: only [common] and [connShutdownTimeout] are set; every
    other field keeps its zero value, so [senders] is the nil map. *)
Definition NewWebSocket (logger : option Logger) : wsClient :=
  let logger := match logger with Some l => l | None => NopLogger end in
  {| common := NewClientCommon logger;
     url := {| Scheme := ""; Host := ""; Path := "" |};
     conn := None;
     senders := None;
     lastInternalErr := None;
     connShutdownTimeout := defaultShutdownTimeout;
     responseChain := [] |}.

(** The loop of [PrepareStart] over [settings.Agents]. *)
Fixpoint PrepareStart_agents (agents : list (option Agent)) (c : wsClient)
  : go_result wsClient :=
  match agents with
  | [] => Normal c
  | agent :: agents =>
      let sender := NewSender (CLogger (common c)) in
      match agent with
      | None => Panic NilPointerDereference            (* agent.InstanceUid *)
      | Some agent =>
          let id := AgentInstanceUid agent in
          match senders c with
          | None => Panic AssignmentToEntryInNilMap    (* c.senders[id] = sender *)
          | Some m =>
              let c := set_senders (Some (<[id := sender]> m)) c in
              match Agents (common c) with
              | None => Panic NilPointerDereference
              | Some ags =>
                  match ags !! id with
                  | None => Panic NilPointerDereference  (* c.common.Agents[id].Sender *)
                  | Some st =>
                      let cc := set_Agents (Some (<[id := set_AgentSender sender st]> ags))
                                           (common c) in
                      let cc := common_SetAgentDescription id (AgentDescription agent) cc in
                      let cc := common_SetHealth id false cc in
                      PrepareStart_agents agents (set_common cc c)
                  end
              end
          end
      end
  end.

Definition PrepareStart (settings : StartSettings) (c : wsClient)
  : go_result (wsClient * option error) :=
  match PrepareStart_agents (SAgents settings) c with
  | Panic p => Panic p
  | Normal c =>
      let '(cc, err) := common_PrepareStart settings (common c) in
      Normal (set_common cc c, err)
  end.
End Construction.

(* ===================================================================== *)
(** * Receiver *)
(* ===================================================================== *)

(** The codec and the flag constant come from packages outside the files
    embedded here. *)
Class Protobufs := {
  DecodeWSMessage : list Z -> ServerToAgent + error;
  ServerToAgent_RequestRestart : Z;
}.

Section Receiver.
Context `{Protobufs}.

(** [receiveMessage]: the result of [r.conn.ReadMessage()] is an input. *)
Definition receiveMessage (read : list Z + error) : ServerToAgent + error :=
  match read with
  | inr err => inr err
  | inl bytes =>
      match DecodeWSMessage bytes with
      | inr err => inr (WrapError "cannot decode received message: %w" err)
      | inl msg => inl msg
      end
  end.

(** What the environment decides in one iteration of [ReceiverLoop]: the
    context is done when the loop tests it, or it is done while the read
    is in flight, or the read completes first. *)
Inductive recv_step :=
| CtxDoneAtLoopHead
| CtxDoneDuringRead
| ReadCompleted (read : list Z + error).

(** [WSReceiver], restricted to its processor: the events that a call of
    [r.processor.ProcessReceivedMessage(ctx, msg)] produces. The call
    returns nothing to the loop. *)
Record WSReceiver := mkWSReceiver {
  processor : ServerToAgent -> list event;
}.

(** [ReceiverLoop]: the events of the goroutine and whether it has
    returned. The deferred [close(r.stopped)] is the last event of a
    loop that returns. *)
Fixpoint ReceiverLoop (r : WSReceiver) (steps : list recv_step)
  : list event * bool :=
  match steps with
  | [] => ([], false)
  | CtxDoneAtLoopHead :: _ => ([CloseReceiverStopped], true)
  | CtxDoneDuringRead :: _ => ([CloseReceiverStopped], true)
  | ReadCompleted read :: steps =>
      match receiveMessage read with
      | inr err =>
          ((if negb (IsCloseError err [CloseNormalClosure])
            then [Errorf "Unexpected error while receiving: %v" [ArgErr err]]
            else [])
           ++ [CloseReceiverStopped], true)
      | inl msg =>
          let '(t, returned) := ReceiverLoop r steps in
          (processor r msg ++ t, returned)
      end
  end.

(** Modelled from the spec: the received-message processor
    ([processReceivedMessage]), whose code is outside the files embedded
    here. If the [RequestRestart] flag is set, it invokes the user's
    [OnRestartRequested] callback and logs the error the callback returns;
    the other payload fields are dispatched to their own handlers. *)
Definition processReceivedMessage (cb : Callbacks) (msg : ServerToAgent)
  : list event :=
  (if Z.land (Flags msg) ServerToAgent_RequestRestart =? 0 then []
   else OnRestartRequestedCall ::
        match OnRestartRequested cb with
        | Some err => [Errorf "Failed to handle restart request: %v" [ArgErr err]]
        | None => []
        end)
  ++ [DispatchPayload (Payload msg)].

(** [NewWSReceiver]: the receiver whose processor is built from the
    callbacks. *)
Definition NewWSReceiver (cb : Callbacks) : WSReceiver :=
  {| processor := processReceivedMessage cb |}.
End Receiver.

(* ===================================================================== *)
(** * Shutdown coordinator *)
(* ===================================================================== *)

(** Logical time. A channel that is closed at some instant is ready from
    that instant on; [None] is a channel that never becomes ready. Code
    between two blocking operations takes no time. *)
Definition earliest (a b : option Z) : option Z :=
  match a, b with
  | Some x, Some y => Some (Z.min x y)
  | Some x, None => Some x
  | None, b => b
  end.

(** A blocking receive started at [now] on a channel ready at [at_]. *)
Definition await (now : Z) (at_ : option Z) : option Z :=
  match at_ with
  | Some t => Some (Z.max now t)
  | None => None
  end.

(** A two-case [select] started at [now]: it blocks until the first
    instant at which a case is ready; when both are ready at that instant
    the runtime picks one ([pickFirst]). The result is the instant and
    whether the first case was taken; [None] if it blocks for ever. *)
Definition select2 (now : Z) (a b : option Z) (pickFirst : bool)
  : option (Z * bool) :=
  match a, b with
  | None, None => None
  | Some ta, None => Some (Z.max now ta, true)
  | None, Some tb => Some (Z.max now tb, false)
  | Some ta, Some tb =>
      let t := Z.max now (Z.min ta tb) in
      if (ta <=? t) && (tb <=? t) then Some (t, pickFirst)
      else Some (t, ta <=? t)
  end.

(** The environment of one coordinator goroutine. [senderStoppedAt] and
    [receiverStoppedAt] are the instants at which the two tasks stop if this
    coordinator cancels nothing ([None]: never). A task whose context the
    coordinator cancels at [t] stops at [t] plus its stop delay, unless it
    stops earlier on its own; a stop delay of [None] is a task that does
    not react to the cancellation (a receiver that is inside
    [ProcessReceivedMessage], a sender blocked in a write). *)
Record coord_env := mkCoordEnv {
  senderStoppedAt : option Z;
  receiverStoppedAt : option Z;
  StoppingErr : option error;
  senderStopDelay : option Z;
  receiverStopDelay : option Z;
  pickOuter : bool;
  pickInner : bool;
}.

Definition receiverStoppedAfterCancel (env : coord_env) (t : Z) : option Z :=
  earliest (receiverStoppedAt env)
           (match receiverStopDelay env with Some d => Some (t + d) | None => None end).

Definition senderStoppedAfterCancel (env : coord_env) (t : Z) : option Z :=
  earliest (senderStoppedAt env)
           (match senderStopDelay env with Some d => Some (t + d) | None => None end).

(** The goroutine spawned per agent at the end of [runOneCycle], started at
    [t0]: its events, each with the instant at which it happens, and the
    instant at which the goroutine ends ([None]: it blocks for ever). *)
Definition coordinator (c : wsClient) (env : coord_env) (t0 : Z)
  : list (Z * event) * option Z :=
  match select2 t0 (senderStoppedAt env) (receiverStoppedAt env) (pickOuter env) with
  | None => ([], None)
  | Some (t, true) =>
      (* case <-sender.IsStopped() *)
      match StoppingErr env with
      | Some err =>
          ([(t, Debugf "Error stopping the sender: %v" [ArgErr err]);
            (t, StopReceiver)],
           await t (receiverStoppedAfterCancel env t))
      | None =>
          let waiting := (t, Debugf "Waiting for receiver to stop." []) in
          match select2 t (receiverStoppedAt env)
                        (Some (t + connShutdownTimeout c)) (pickInner env) with
          | Some (t', true) =>
              ([waiting; (t', Debugf "Receiver stopped." [])], Some t')
          | Some (t', false) =>
              ([waiting;
                (t', Debugf "Timeout waiting for receiver to stop." []);
                (t', StopReceiver)],
               await t' (receiverStoppedAfterCancel env t'))
          | None => ([waiting], None)
          end
      end
  | Some (t, false) =>
      (* case <-r.IsStopped() *)
      ([(t, StopSender)], await t (senderStoppedAfterCancel env t))
  end.

(** Instants at which the coordinator cancels the receiver's context. *)
Definition stopReceiverInstants (t : list (Z * event)) : list Z :=
  omap (fun te => match te with (i, StopReceiver) => Some i | _ => None end) t.

(** Instants at which the coordinator cancels the sender's context. *)
Definition stopSenderInstants (t : list (Z * event)) : list Z :=
  omap (fun te => match te with (i, StopSender) => Some i | _ => None end) t.

(* ===================================================================== *)
(** * One cycle *)
(* ===================================================================== *)

(** The environment of one call of [runOneCycle]. *)
Record cycle_env := mkCycleEnv {
  connectIts : list iteration;                  (* of ensureConnected *)
  stoppingAfterConnect : bool;                  (* c.common.IsStopping() *)
  prepareFirstMessage : option error;           (* c.common.PrepareFirstMessage *)
  senderStartErr : InstanceUid -> option error; (* sender.Start *)
}.

(** [for _, sender := range c.senders { sender.Start(senderCtx, c.conn) }];
    the result tells whether every sender started. *)
Fixpoint startSenders (env : cycle_env) (k : option Conn)
  (l : list (InstanceUid * WSSender)) : M bool :=
  match l with
  | [] => ret true
  | (id, _) :: l =>
      emit (SenderStart id k) ;;;
      match senderStartErr env id with
      | Some err =>
          emit (Errorf "Failed to send first status report: %v" [ArgErr err]) ;;;
          ret false
      | None => startSenders env k l
      end
  end.

(** The second loop over [c.senders]: create and start the receiver, then
    spawn the coordinator goroutine and go on without waiting for it.
    [NewWSReceiver] is handed fields of [c.common.Agents[id]]; the loop is
    embedded for clients in which every id of [c.senders] has a record
    there (see [hasAgent]), as [PrepareStart] leaves them. *)
Fixpoint startReceivers (k : option Conn) (l : list (InstanceUid * WSSender))
  : M unit :=
  match l with
  | [] => ret tt
  | (id, _) :: l =>
      emit (ReceiverStart id k) ;;;
      emit (GoCoordinator id) ;;;
      startReceivers k l
  end.

(** A range over a Go map visits its entries in an unspecified order; the
    order of [map_to_list] stands for it, for the first loop and for the
    second, which Go may run in another order. A nil map has no
    entries. *)
Definition rangeSenders (c : wsClient) : list (InstanceUid * WSSender) :=
  match senders c with
  | Some m => map_to_list m
  | None => []
  end.

(** [runOneCycle]: the events of the supervisor goroutine, the deferred
    calls in their order of execution at each [return]. The result is
    [false] while [ensureConnected] has not returned. *)
Definition runOneCycle (env : cycle_env) : M bool :=
  r <~ ensureConnected (connectIts env) ;;
  match r with
  | Blocked => ret false
  | Returned (Some _) => ret true
  | Returned None =>
      c <~ get ;;
      let k := conn c in
      if stoppingAfterConnect env then
        emit (ConnClose k) ;;; ret true
      else
        emit PrepareFirstMessageCall ;;;
        match prepareFirstMessage env with
        | Some err =>
            emit (Errorf "cannot prepare the first message:%v" [ArgErr err]) ;;;
            emit (ConnClose k) ;;; ret true
        | None =>
            started <~ startSenders env k (rangeSenders c) ;;
            if negb started then
              emit StopSender ;;; emit (ConnClose k) ;;; ret true
            else
              startReceivers k (rangeSenders c) ;;;
              emit StopReceiver ;;; emit StopSender ;;; emit (ConnClose k) ;;;
              ret true
        end
  end.

(** ** The goroutines of a cycle *)

Inductive task_state := TaskRunning | TaskStopped.

(** The shared state of a cycle: the connection, the two cancellable
    contexts, and for each agent whether its sender and its receiver run.
    A task is [TaskStopped] once its stopped channel is closed. *)
Record world := mkWorld {
  connClosed : bool;
  senderCtxDone : bool;
  receiverCtxDone : bool;
  senderTask : gmap InstanceUid task_state;
  receiverTask : gmap InstanceUid task_state;
  coordinators : list InstanceUid;
}.

Definition world0 : world :=
  {| connClosed := false; senderCtxDone := false; receiverCtxDone := false;
     senderTask := ∅; receiverTask := ∅; coordinators := [] |}.

(** Effect of one event of the supervisor goroutine on the shared state.
    None of them waits for another goroutine. *)
Definition supervisor_step (e : event) (w : world) : world :=
  match e with
  | SenderStart id _ =>
      {| connClosed := connClosed w; senderCtxDone := senderCtxDone w;
         receiverCtxDone := receiverCtxDone w;
         senderTask := <[id := TaskRunning]> (senderTask w);
         receiverTask := receiverTask w; coordinators := coordinators w |}
  | ReceiverStart id _ =>
      {| connClosed := connClosed w; senderCtxDone := senderCtxDone w;
         receiverCtxDone := receiverCtxDone w;
         senderTask := senderTask w;
         receiverTask := <[id := TaskRunning]> (receiverTask w);
         coordinators := coordinators w |}
  | GoCoordinator id =>
      {| connClosed := connClosed w; senderCtxDone := senderCtxDone w;
         receiverCtxDone := receiverCtxDone w;
         senderTask := senderTask w; receiverTask := receiverTask w;
         coordinators := coordinators w ++ [id] |}
  | StopSender =>
      {| connClosed := connClosed w; senderCtxDone := true;
         receiverCtxDone := receiverCtxDone w;
         senderTask := senderTask w; receiverTask := receiverTask w;
         coordinators := coordinators w |}
  | StopReceiver =>
      {| connClosed := connClosed w; senderCtxDone := senderCtxDone w;
         receiverCtxDone := true;
         senderTask := senderTask w; receiverTask := receiverTask w;
         coordinators := coordinators w |}
  | ConnClose _ =>
      {| connClosed := true; senderCtxDone := senderCtxDone w;
         receiverCtxDone := receiverCtxDone w;
         senderTask := senderTask w; receiverTask := receiverTask w;
         coordinators := coordinators w |}
  | _ => w
  end.

(** A step of a sender or receiver goroutine: a running task exits and
    closes its stopped channel. *)
Inductive task_step : world -> world -> Prop :=
| sender_exits w id :
    senderTask w !! id = Some TaskRunning ->
    task_step w
      {| connClosed := connClosed w; senderCtxDone := senderCtxDone w;
         receiverCtxDone := receiverCtxDone w;
         senderTask := <[id := TaskStopped]> (senderTask w);
         receiverTask := receiverTask w; coordinators := coordinators w |}
| receiver_exits w id :
    receiverTask w !! id = Some TaskRunning ->
    task_step w
      {| connClosed := connClosed w; senderCtxDone := senderCtxDone w;
         receiverCtxDone := receiverCtxDone w;
         senderTask := senderTask w;
         receiverTask := <[id := TaskStopped]> (receiverTask w);
         coordinators := coordinators w |}.

(** Interleavings: [schedule p w p' w'] holds when, from the shared state
    [w] with the supervisor about to run the events [p], some interleaving
    of supervisor events (in program order) and task steps leads to [w']
    with the events [p'] of the supervisor still to run. *)
Inductive schedule : list event -> world -> list event -> world -> Prop :=
| schedule_done p w : schedule p w p w
| schedule_supervisor e p w p' w' :
    schedule p (supervisor_step e w) p' w' ->
    schedule (e :: p) w p' w'
| schedule_task p w w1 p' w' :
    task_step w w1 ->
    schedule p w1 p' w' ->
    schedule p w p' w'.

(* ===================================================================== *)
(** * Derived notions and sample values *)
(* ===================================================================== *)

(** The [CheckRedirect] callback, if any, accepts the redirect of [resp]
    to [redirect]: called as [handleRedirect] calls it, it returns nil. *)
Definition redirectAccepted (c : wsClient) (resp : Response) (redirect : URL) : Prop :=
  match CheckRedirect (CCallbacks (common c)) with
  | Some check =>
      check (set_ReqURL redirect (Request_Clone (RespRequest resp)))
            (viaReq (responseChain c ++ [resp]))
            (responseChain c ++ [resp]) = None
  | None => True
  end.

(** A failed dial that carries an HTTP response, and a successful one. *)
Definition failWith (err : error) (resp : option Response) : attempt :=
  {| dial := DialFail err resp; stoppingAfterDial := false; stoppingAtDefer := false |}.

Definition succeedWith (k : Conn) : attempt :=
  {| dial := DialOk k; stoppingAfterDial := false; stoppingAtDefer := false |}.

Definition errBadHandshake : error := ErrorString "websocket: bad handshake".

Definition urlHost1 : URL := {| Scheme := "ws"; Host := "host1"; Path := "/" |}.
Definition urlHost2 : URL := {| Scheme := "http"; Host := "host2"; Path := "/a" |}.
Definition urlHost3 : URL := {| Scheme := "https"; Host := "host3"; Path := "/b" |}.

Definition getRequest (u : URL) : Request := {| ReqURL := u; ReqMethod := "GET" |}.

(** 307 at [ws://host1/] with [Location: http://host2/a]. *)
Definition resp307 : Response :=
  {| StatusCode := 307; Status := "307 Temporary Redirect";
     RespRequest := getRequest urlHost1;
     Location := inl urlHost2; RetryAfterHeader := NoDuration |}.

(** 308 at [ws://host2/a] with [Location: https://host3/b]. *)
Definition resp308 : Response :=
  {| StatusCode := 308; Status := "308 Permanent Redirect";
     RespRequest := getRequest (set_Scheme "ws" urlHost2);
     Location := inl urlHost3; RetryAfterHeader := NoDuration |}.

(** 503 with [Retry-After: 10] (seconds). *)
Definition resp503 : Response :=
  {| StatusCode := 503; Status := "503 Service Unavailable";
     RespRequest := getRequest urlHost1;
     Location := inr (ErrorString "http: no Location header in response");
     RetryAfterHeader := {| Duration := 10 * 1000000000; Defined := true |} |}.

(** Callbacks whose [CheckRedirect] accepts every redirect. *)
Definition acceptingCallbacks : Callbacks :=
  {| CheckRedirect := Some (fun _ _ _ => None); OnRestartRequested := None |}.

(** A common client with one agent record per given id. *)
Definition sampleCommon (logger : Logger) : ClientCommon :=
  {| CLogger := logger; CCallbacks := acceptingCallbacks;
     Agents := Some {[ "agent-1" := {| Sender := None; Description := ""; Healthy := false |} ]} |}.

Definition sampleOps : ClientCommonOps :=
  {| NewClientCommon := sampleCommon;
     common_SetAgentDescription := fun _ _ cc => cc;
     common_SetHealth := fun _ _ cc => cc;
     common_PrepareStart := fun _ cc => (cc, None) |}.

(** The client returned by [NewWebSocket], after [Start] has parsed the
    server URL [ws://host1/]. *)
Definition startedClient : wsClient :=
  set_url urlHost1 (@NewWebSocket sampleOps None).

(** The same client with the sender of one agent registered. *)
Definition clientWithSender : wsClient :=
  set_senders (Some {[ "agent-1" := NewSender NopLogger ]}) startedClient.

(** Iterations of [ensureConnected] whose timer fires: a dial that fails
    with the 3xx response [r], and a dial that succeeds. *)
Definition redirectIteration (nb : Z) (err : error) (r : Response) : iteration :=
  {| nextBackOff := nb; ready := TimerFired (failWith err (Some r)) |}.

Definition successIteration (nb : Z) (k : Conn) : iteration :=
  {| nextBackOff := nb; ready := TimerFired (succeedWith k) |}.

(** The chains that successive redirects build on top of [acc]: after each
    response, the chain so far. *)
Fixpoint chainsFrom (acc : list Response) (rs : list Response) : list (list Response) :=
  match rs with
  | [] => []
  | r :: rs => (acc ++ [r]) :: chainsFrom (acc ++ [r]) rs
  end.

(** A response that [tryConnectOnce] treats as a redirect to follow. *)
Definition followable (r : Response) : Prop :=
  is3xx (StatusCode r) = true /\ exists u, Location r = inl u.

(** Number of calls of [OnRestartRequested] in an event log. *)
Definition restartCalls (t : list event) : nat :=
  length (omap (fun e => match e with OnRestartRequestedCall => Some tt | _ => None end) t).

(** Error-level log calls of an event log. *)
Definition errorLogs (t : list event) : list event :=
  omap (fun e => match e with Errorf _ _ => Some e | _ => None end) t.

Section ReceiverNotions.
Context `{Protobufs}.

(** The message a step of the receiver loop delivers to the processor:
    none when the context is done or the read or the decoding fails. *)
Definition stepMessage (s : recv_step) : option ServerToAgent :=
  match s with
  | ReadCompleted read =>
      match receiveMessage read with
      | inl msg => Some msg
      | inr _ => None
      end
  | _ => None
  end.

(** The error a step of the receiver loop ends with, if any. *)
Definition stepError (s : recv_step) : option error :=
  match s with
  | ReadCompleted read =>
      match receiveMessage read with
      | inl _ => None
      | inr err => Some err
      end
  | _ => None
  end.
End ReceiverNotions.

(** A codec for examples: the first byte of a frame is the flags field, an
    empty frame is malformed. *)
Definition sampleProtobufs : Protobufs :=
  {| DecodeWSMessage := fun bytes =>
       match bytes with
       | [] => inr (ErrorString "malformed frame")
       | flags :: _ => inl {| Flags := flags; Payload := "" |}
       end;
     ServerToAgent_RequestRestart := 1 |}.

(** Callbacks whose [OnRestartRequested] handler fails. *)
Definition failingRestartCallbacks : Callbacks :=
  {| CheckRedirect := None; OnRestartRequested := Some (ErrorString "restart refused") |}.

(** A cycle in which the first dial succeeds, the client is not stopping,
    the first message is prepared and every sender starts. *)
Definition healthyCycle : cycle_env :=
  {| connectIts := [successIteration 500000000 (mkConn 1)];
     stoppingAfterConnect := false;
     prepareFirstMessage := None;
     senderStartErr := fun _ => None |}.

(** A coordinator whose sender stops cleanly at instant 10 and whose
    receiver never sees the server's close frame. *)
Definition silentPeer : coord_env :=
  {| senderStoppedAt := Some 10; receiverStoppedAt := None; StoppingErr := None;
     senderStopDelay := Some 1; receiverStopDelay := Some 1;
     pickOuter := true; pickInner := true |}.

(** The shared state after the supervisor has run the events [p] from [w]
    with no other goroutine taking a step in between. *)
Definition run_alone (p : list event) (w : world) : world :=
  foldl (fun w e => supervisor_step e w) w p.

(** ** Further observations on event logs *)

(** Number of calls of [OnConnect]. *)
Definition onConnectCalls (t : list event) : nat :=
  length (omap (fun e => match e with OnConnect => Some tt | _ => None end) t).

(** Connections closed by [c.conn.Close()], in order. *)
Definition connCloses (t : list event) : list (option Conn) :=
  omap (fun e => match e with ConnClose k => Some k | _ => None end) t.

(** Arguments of the calls of [CheckRedirect], in order. *)
Definition checkRedirectCalls (t : list event)
  : list (Request * list Request * list Response) :=
  omap (fun e => match e with
                 | CheckRedirectCall req via resps => Some (req, via, resps)
                 | _ => None
                 end) t.

(** Agents whose sender was started, whose receiver was started, and for
    whom a coordinator was spawned, in order. *)
Definition sendersStarted (t : list event) : list InstanceUid :=
  omap (fun e => match e with SenderStart id _ => Some id | _ => None end) t.

Definition receiversStarted (t : list event) : list InstanceUid :=
  omap (fun e => match e with ReceiverStart id _ => Some id | _ => None end) t.

Definition coordinatorsSpawned (t : list event) : list InstanceUid :=
  omap (fun e => match e with GoCoordinator id => Some id | _ => None end) t.

(** The client with another callbacks bundle. *)
Definition withCallbacks (cb : Callbacks) (c : wsClient) : wsClient :=
  set_common {| CLogger := CLogger (common c); CCallbacks := cb;
                Agents := Agents (common c) |} c.

(** Callbacks whose [CheckRedirect] rejects every redirect with [err]. *)
Definition rejectingCallbacks (err : error) : Callbacks :=
  {| CheckRedirect := Some (fun _ _ _ => Some err); OnRestartRequested := None |}.

(* ===================================================================== *)
(** * The supervisor loop *)
(* ===================================================================== *)

(** The environment of one iteration of [runUntilStopped]: the value of
    [c.common.IsStopping()] at the head of the loop and the environment of
    the cycle that runs when it is false. *)
Record supervisor_iteration := mkSupervisorIteration {
  stoppingAtLoopHead : bool;
  cycle : cycle_env;
}.

(** [runUntilStopped]: the result tells whether the loop has returned;
    it is [false] while a cycle is still waiting in [ensureConnected] or
    the environment has not decided the next iteration. *)
Fixpoint runUntilStopped (its : list supervisor_iteration) : M bool :=
  match its with
  | [] => ret false
  | it :: its =>
      if stoppingAtLoopHead it then ret true
      else
        returned <~ runOneCycle (cycle it) ;;
        if returned then runUntilStopped its else ret false
  end.

(** Follows the connection through an event log: [OnConnect] opens it,
    [c.conn.Close()] closes it. Starting with the connection open or not
    ([open]), the result is whether it is open at the end, or [None] when
    the log opens a connection while one is open or closes one while none
    is open. *)
Fixpoint trackConn (open : bool) (t : list event) : option bool :=
  match t with
  | [] => Some open
  | OnConnect :: t => if open then None else trackConn true t
  | ConnClose _ :: t => if open then trackConn false t else None
  | _ :: t => trackConn open t
  end.

(** Every response of a chain has a 3xx status. *)
Definition all3xx (l : list Response) : Prop :=
  Forall (fun r => is3xx (StatusCode r) = true) l.

(** Number of times the receiver closes its stopped channel. *)
Definition stoppedCloses (t : list event) : nat :=
  length (omap (fun e => match e with CloseReceiverStopped => Some tt | _ => None end) t).

(** The common client holds a record for the agent [id]. *)
Definition hasAgent (cc : ClientCommon) (id : InstanceUid) : Prop :=
  exists ags, Agents cc = Some ags /\ is_Some (ags !! id).

(** Instance ids of the non-nil entries of an agent list. *)
Definition agentIds (agents : list (option Agent)) : list InstanceUid :=
  omap (fun a => match a with Some a => Some (AgentInstanceUid a) | None => None end) agents.

(** A receiver whose processor does nothing. *)
Definition idleReceiver : WSReceiver := {| processor := fun _ => [] |}.

(** A client whose [senders] map has been made (empty), over the sample
    common client. *)
Definition clientWithSendersMap : wsClient := set_senders (Some ∅) startedClient.

(** Settings that register the one agent the sample common client knows. *)
Definition oneAgentSettings : StartSettings :=
  {| OpAMPServerURL := "ws://host1/";
     SAgents := [Some {| AgentInstanceUid := "agent-1"; AgentDescription := "collector" |}] |}.

(* ===================================================================== *)
(** * Start *)
(* ===================================================================== *)

(** [tls.Config], opaque. *)
Record TLSConfig := mkTLSConfig { ServerName : string }.

(** [http.Header]. *)
Definition Header := gmap string (list string).

(** The fields of [types.StartSettings] that [Start] reads besides the
    server URL. *)
Record ConnectionSettings := mkConnectionSettings {
  SettingsTLSConfig : option TLSConfig;
  SettingsEnableCompression : bool;
  SettingsHeader : option Header;
  SettingsHeaderFunc : option (Header -> Header);
}.

(** [websocket.Dialer], restricted to the two fields [Start] sets on the
    copy of [websocket.DefaultDialer]. *)
Record Dialer := mkDialer {
  EnableCompression : bool;
  TLSClientConfig : option TLSConfig;
}.

Definition DefaultDialer : Dialer :=
  {| EnableCompression := false; TLSClientConfig := None |}.

(** What [Start] assigns besides the client's URL: the [dialer] field, the
    header that a call of the [getHeader] it builds returns ([None] when it
    builds none), and whether [c.common.StartConnectAndRun] was called with
    [c.runUntilStopped]. *)
Record start_effects := mkStartEffects {
  dialer : Dialer;
  getHeader : option Header;
  connectLoopStarted : bool;
}.

(** [Start]. [parse] stands for [url.Parse]; when it fails, [c.url] is
    assigned its nil result, for which the empty URL stands. A call of
    [baseHeader.Clone()] yields an equal header. *)
Definition Start (parse : string -> URL + error) (settings : StartSettings)
  (cs : ConnectionSettings) (c : wsClient)
  : wsClient * start_effects * option error :=
  let dialer := DefaultDialer in
  match parse (OpAMPServerURL settings) with
  | inr err =>
      (set_url {| Scheme := ""; Host := ""; Path := "" |} c,
       {| dialer := dialer; getHeader := None; connectLoopStarted := false |},
       Some err)
  | inl u =>
      let dialer := {| EnableCompression := SettingsEnableCompression cs;
                       TLSClientConfig := TLSClientConfig dialer |} in
      let u := match SettingsTLSConfig cs with
               | Some _ => set_Scheme "wss" u
               | None => u
               end in
      let dialer := {| EnableCompression := EnableCompression dialer;
                       TLSClientConfig := SettingsTLSConfig cs |} in
      let headerFunc := match SettingsHeaderFunc cs with
                        | Some f => f
                        | None => fun h => h
                        end in
      let baseHeader := match SettingsHeader cs with
                        | Some h => h
                        | None => ∅
                        end in
      (set_url u c,
       {| dialer := dialer; getHeader := Some (headerFunc baseHeader);
          connectLoopStarted := true |},
       None)
  end.

(** A parser for examples: it knows two server URLs and rejects the
    rest. *)
Definition sampleParse (s : string) : URL + error :=
  if String.eqb s "ws://host1/" then inl urlHost1
  else if String.eqb s "http://host2/a" then inl urlHost2
  else inr (ErrorString "parse error").

Definition tlsSettings : ConnectionSettings :=
  {| SettingsTLSConfig := Some {| ServerName := "host1" |};
     SettingsEnableCompression := true;
     SettingsHeader := None; SettingsHeaderFunc := None |}.

(** 302 without a Location header. *)
Definition resp302NoLocation : Response :=
  {| StatusCode := 302; Status := "302 Found";
     RespRequest := getRequest urlHost1;
     Location := inr (ErrorString "http: no Location header in response");
     RetryAfterHeader := NoDuration |}.

(** The started client with a [CheckRedirect] that refuses every
    redirect, and with one that answers [context.Canceled]. *)
Definition refusingClient : wsClient :=
  withCallbacks (rejectingCallbacks (ErrorString "redirect refused")) startedClient.

Definition cancellingClient : wsClient :=
  withCallbacks (rejectingCallbacks ContextCanceled) startedClient.

(** A cycle like [healthyCycle] in which no sender manages to start. *)
Definition failingSenderCycle : cycle_env :=
  {| connectIts := [successIteration 500000000 (mkConn 1)];
     stoppingAfterConnect := false;
     prepareFirstMessage := None;
     senderStartErr := fun _ => Some (ErrorString "write failed") |}.

(** One healthy cycle, then the stopping flag is seen. *)
Definition oneCycleThenStop : list supervisor_iteration :=
  [ {| stoppingAtLoopHead := false; cycle := healthyCycle |};
    {| stoppingAtLoopHead := true; cycle := healthyCycle |} ].

(** A healthy cycle whose first dial is answered with the redirect [r]
    and whose second dial succeeds with the connection [k]. *)
Definition redirectedCycle (r : Response) (k : Conn) : cycle_env :=
  {| connectIts := [redirectIteration 500000000 errBadHandshake r;
                    successIteration 500000000 k];
     stoppingAfterConnect := false;
     prepareFirstMessage := None;
     senderStartErr := fun _ => None |}.

(** Two cycles that are each redirected once, then the stopping flag is
    seen. *)
Definition twoRedirectedCyclesThenStop : list supervisor_iteration :=
  [ {| stoppingAtLoopHead := false; cycle := redirectedCycle resp307 (mkConn 1) |};
    {| stoppingAtLoopHead := false; cycle := redirectedCycle resp308 (mkConn 2) |};
    {| stoppingAtLoopHead := true; cycle := healthyCycle |} ].

(** A client that manages two agents: both have a record in the common
    client and a sender. *)
Definition clientWithTwoSenders : wsClient :=
  set_senders (Some (<[ "agent-2" := NewSender NopLogger ]>
                       {[ "agent-1" := NewSender NopLogger ]}))
    (set_common
       (set_Agents (Some (<[ "agent-2" := {| Sender := None; Description := "";
                                            Healthy := false |} ]>
                            {[ "agent-1" := {| Sender := None; Description := "";
                                               Healthy := false |} ]}))
                   (common startedClient))
       startedClient).

(* ===================================================================== *)
(** * Properties *)
(* ===================================================================== *)

(** ** Reduction of monadic programs *)

Ltac run_m :=
  cbv [tryConnectOnce tryConnectOnce_body tryConnectOnce_deferred
       handleRedirect bind ret emit get modify when
       result_of state_of trace_of fst snd].

Ltac case_cb :=
  match goal with
  | |- context [match Location ?r with _ => _ end] => destruct (Location r) eqn:?
  | |- context [match CheckRedirect ?x with _ => _ end] => destruct (CheckRedirect x) eqn:?
  | |- context [match ?check ?a ?b ?d with Some _ => _ | None => _ end] =>
      is_var check; destruct (check a b d) eqn:?
  | |- context [if is3xx ?s then _ else _] => destruct (is3xx s) eqn:?
  | |- context [if negb ?b then _ else _] => is_var b; destruct b
  | |- context [if ?b then _ else _] => is_var b; destruct b
  end.

Ltac crunch := run_m; simpl; repeat (case_cb; simpl).

Lemma trace_bind {A B} (m : M A) (f : A -> M B) c :
  trace_of (bind m f c)
  = trace_of (m c) ++ trace_of (f (result_of (m c)) (state_of (m c))).
Proof.
  unfold bind, trace_of, result_of, state_of.
  destruct (m c) as [[a c1] t1]. simpl. destruct (f a c1) as [[b c2] t2].
  reflexivity.
Qed.

Lemma state_bind {A B} (m : M A) (f : A -> M B) c :
  state_of (bind m f c) = state_of (f (result_of (m c)) (state_of (m c))).
Proof.
  unfold bind, trace_of, result_of, state_of.
  destruct (m c) as [[a c1] t1]. simpl. destruct (f a c1) as [[b c2] t2].
  reflexivity.
Qed.

Lemma result_bind {A B} (m : M A) (f : A -> M B) c :
  result_of (bind m f c) = result_of (f (result_of (m c)) (state_of (m c))).
Proof.
  unfold bind, trace_of, result_of, state_of.
  destruct (m c) as [[a c1] t1]. simpl. destruct (f a c1) as [[b c2] t2].
  reflexivity.
Qed.

(** ** A single attempt *)

(** A successful dial leaves the response chain as it was. *)
Lemma tryConnectOnce_success_responseChain k s1 s2 c :
  responseChain (state_of (tryConnectOnce (mkAttempt (DialOk k) s1 s2) c))
  = responseChain c.
Proof. reflexivity. Qed.

(** A failure without a response, or with a response that is not a 3xx,
    clears the response chain. *)
Lemma tryConnectOnce_failure_clears_responseChain err resp s1 s2 c :
  match resp with Some r => is3xx (StatusCode r) = false | None => True end ->
  responseChain (state_of (tryConnectOnce (mkAttempt (DialFail err resp) s1 s2) c)) = [].
Proof.
  intros Hresp. run_m. simpl.
  destruct resp as [r|]; [rewrite Hresp|]; destruct s1, s2; reflexivity.
Qed.


(** A 3xx response is appended to the response chain, whatever the
    outcome of [handleRedirect]. *)
Lemma tryConnectOnce_redirect_appends err r s1 s2 c :
  is3xx (StatusCode r) = true ->
  responseChain (state_of (tryConnectOnce (mkAttempt (DialFail err (Some r)) s1 s2) c))
  = responseChain c ++ [r].
Proof.
  intros H3. run_m. simpl. rewrite H3. repeat (case_cb; simpl); reflexivity.
Qed.

(** No attempt arms a timer. *)
Lemma timers_tryConnectOnce a c : timers (trace_of (tryConnectOnce a c)) = [].
Proof. destruct a as [[k|err [r|]] s1 s2]; crunch; reflexivity. Qed.

(** No attempt replaces the common client. *)
Lemma tryConnectOnce_common a c : common (state_of (tryConnectOnce a c)) = common c.
Proof. destruct a as [[k|err [r|]] s1 s2]; crunch; reflexivity. Qed.

(** The chain is only ever extended by [handleRedirect]: an attempt leaves
    it unchanged, clears it, or appends the 3xx response of this attempt. *)
Lemma tryConnectOnce_responseChain_cases a c :
  let chain := responseChain (state_of (tryConnectOnce a c)) in
  chain = responseChain c \/ chain = [] \/
  exists err r, dial a = DialFail err (Some r) /\ is3xx (StatusCode r) = true /\
                chain = responseChain c ++ [r].
Proof.
  destruct a as [[k|err [r|]] s1 s2]; crunch; eauto 10.
Qed.

(** ** C10: calls of OnConnectFailed *)

(** C10. When the dial fails and the client is not stopping,
    [tryConnectOnce] calls [OnConnectFailed] twice with the dial error if
    there is no response or the response is not a 3xx (once after the dial
    and once in the deferred function), and once if the 3xx branch is
    taken. *)
Theorem tryConnectOnce_OnConnectFailed_calls (a : attempt) (c : wsClient) err resp :
  dial a = DialFail err resp ->
  stoppingAfterDial a = false ->
  stoppingAtDefer a = false ->
  connectFailedCalls (trace_of (tryConnectOnce a c)) =
    match resp with
    | Some r => if is3xx (StatusCode r) then [err] else [err; err]
    | None => [err; err]
    end.
Proof.
  destruct a as [d s1 s2]; simpl; intros -> -> ->.
  destruct resp as [r|]; crunch; reflexivity.
Qed.

Lemma tryConnectOnce_OnConnectFailed_calls_witness :
  connectFailedCalls
    (trace_of (tryConnectOnce (failWith errBadHandshake (Some resp503)) startedClient))
  = [errBadHandshake; errBadHandshake]
  /\ connectFailedCalls
       (trace_of (tryConnectOnce (failWith errBadHandshake None) startedClient))
     = [errBadHandshake; errBadHandshake]
  /\ connectFailedCalls
       (trace_of (tryConnectOnce (failWith errBadHandshake (Some resp307)) startedClient))
     = [errBadHandshake].
Proof.
  split; [|split].
  - exact (tryConnectOnce_OnConnectFailed_calls
             (failWith errBadHandshake (Some resp503)) startedClient
             errBadHandshake (Some resp503) eq_refl eq_refl eq_refl).
  - exact (tryConnectOnce_OnConnectFailed_calls
             (failWith errBadHandshake None) startedClient
             errBadHandshake None eq_refl eq_refl eq_refl).
  - exact (tryConnectOnce_OnConnectFailed_calls
             (failWith errBadHandshake (Some resp307)) startedClient
             errBadHandshake (Some resp307) eq_refl eq_refl eq_refl).
Defined.

(** ** C5: scheme rewrite and URL replacement *)

Lemma rewriteScheme_http u : Scheme u = "http" -> rewriteScheme u = set_Scheme "ws" u.
Proof. intros E. unfold rewriteScheme. rewrite E. reflexivity. Qed.

Lemma rewriteScheme_https u : Scheme u = "https" -> rewriteScheme u = set_Scheme "wss" u.
Proof. intros E. unfold rewriteScheme. rewrite E. reflexivity. Qed.

Lemma tryConnectOnce_dials a c :
  dialled (trace_of (tryConnectOnce a c)) = [URL_String (url c)].
Proof. destruct a as [[k|err [r|]] s1 s2]; crunch; reflexivity. Qed.

(** C5. When a dial fails with a 3xx response whose Location is valid and
    the [CheckRedirect] callback, if any, accepts, the attempt returns the
    dial error, the client's URL becomes the redirect target with [http]
    rewritten to [ws] and [https] to [wss], and the next attempt dials
    that URL. *)
Theorem redirect_rewrites_scheme_and_replaces_url (a : attempt) (c : wsClient)
    err resp redirect :
  dial a = DialFail err (Some resp) ->
  is3xx (StatusCode resp) = true ->
  Location resp = inl redirect ->
  redirectAccepted c resp redirect ->
  let r := tryConnectOnce a c in
  snd (result_of r) = Some err /\
  url (state_of r) = rewriteScheme redirect /\
  (Scheme redirect = "http" -> url (state_of r) = set_Scheme "ws" redirect) /\
  (Scheme redirect = "https" -> url (state_of r) = set_Scheme "wss" redirect) /\
  (forall a', dialled (trace_of (tryConnectOnce a' (state_of r)))
              = [URL_String (rewriteScheme redirect)]) /\
  (errors_Is_Canceled err = false ->
   forall nb nb' a' rest,
     take 2 (dialled (trace_of (ensureConnected
               (mkIteration nb (TimerFired a) :: mkIteration nb' (TimerFired a') :: rest) c)))
     = [URL_String (url c); URL_String (rewriteScheme redirect)]).
Proof.
  destruct a as [d s1 s2]; simpl; intros -> H3 Hloc Hacc.
  assert (Hurl : url (state_of (tryConnectOnce (mkAttempt (DialFail err (Some resp)) s1 s2) c))
                 = rewriteScheme redirect).
  { unfold redirectAccepted in Hacc. run_m.
    destruct s1; simpl; rewrite H3, Hloc; simpl;
      (destruct (CheckRedirect (CCallbacks (common c))) as [check|]; simpl;
       [rewrite Hacc|]; reflexivity). }
  assert (Herr : snd (result_of (tryConnectOnce (mkAttempt (DialFail err (Some resp)) s1 s2) c))
                 = Some err).
  { unfold redirectAccepted in Hacc. run_m.
    destruct s1; simpl; rewrite H3, Hloc; simpl;
      (destruct (CheckRedirect (CCallbacks (common c))) as [check|]; simpl;
       [rewrite Hacc|]; reflexivity). }
  split; [exact Herr|]. split; [exact Hurl|].
  split; [intros E; rewrite Hurl; apply rewriteScheme_http, E|].
  split; [intros E; rewrite Hurl; apply rewriteScheme_https, E|].
  split; [intros a'; rewrite tryConnectOnce_dials, Hurl; reflexivity|].
  intros Hnc nb nb' a' rest.
  unfold ensureConnected. cbn [ensureConnected_loop nextBackOff ready].
  pose proof (tryConnectOnce_dials (mkAttempt (DialFail err (Some resp)) s1 s2) c) as Hd1.
  set (r1 := tryConnectOnce (mkAttempt (DialFail err (Some resp)) s1 s2) c) in *.
  rewrite !trace_bind.
  change (state_of (emit (NewTimer 0) c)) with c. fold r1.
  destruct (result_of r1) as [ra e1] eqn:Er1. cbn [snd] in Herr. subst e1.
  rewrite !trace_bind, Hnc, !trace_bind.
  change (state_of (modify (set_lastInternalErr (Some err)) (state_of r1)))
    with (set_lastInternalErr (Some err) (state_of r1)).
  cbn [emit state_of fst snd].
  pose proof (tryConnectOnce_dials a' (set_lastInternalErr (Some err) (state_of r1))) as Hd2.
  unfold dialled in *. rewrite !omap_app, Hd1, Hd2. simpl. rewrite Hurl. reflexivity.
Qed.

Lemma redirect_rewrites_scheme_and_replaces_url_witness :
  url (state_of (tryConnectOnce (failWith errBadHandshake (Some resp307)) startedClient))
  = {| Scheme := "ws"; Host := "host2"; Path := "/a" |}.
Proof.
  refine (proj1 (proj2 (redirect_rewrites_scheme_and_replaces_url
            (failWith errBadHandshake (Some resp307)) startedClient
            errBadHandshake resp307 urlHost2 eq_refl eq_refl eq_refl _))).
  reflexivity.
Defined.

(** ** C3: waits between attempts *)

(** The update of [interval] after a failed attempt is the wait the
    specification prescribes. *)
Lemma wait_after_code nb ra :
  (if Defined ra && (Duration ra >? nb) then Duration ra else nb) = wait_after nb ra.
Proof.
  unfold wait_after. destruct (Defined ra); simpl; [|reflexivity].
  destruct (Z.gtb_spec (Duration ra) nb); lia.
Qed.

Lemma ensureConnected_loop_timers its : forall interval c,
  timers (trace_of (ensureConnected_loop its interval c))
  = take (length its)
         (interval :: map (fun p => wait_after (fst p) (snd p)) (failed_attempts its c)).
Proof.
  induction its as [|[nb rdy] its IH]; intros interval c; [reflexivity|].
  cbn [ensureConnected_loop failed_attempts length take nextBackOff ready].
  destruct rdy as [a|err].
  2:{ cbn [map]. rewrite take_nil. reflexivity. }
  pose proof (timers_tryConnectOnce a c) as Ht.
  unfold bind, emit, trace_of in *. cbn [snd] in *.
  destruct (tryConnectOnce a c) as [[[ra [err|]] c1] t1];
    cbn [result_of state_of fst snd] in *.
  - unfold modify. destruct (errors_Is_Canceled err).
    + cbn [map]. rewrite take_nil. simpl. unfold timers in *.
      rewrite omap_app, Ht. reflexivity.
    + specialize (IH (wait_after nb ra) (set_lastInternalErr (Some err) c1)).
      rewrite wait_after_code.
      destruct (ensureConnected_loop its (wait_after nb ra)
                  (set_lastInternalErr (Some err) c1)) as [[r2 c2] t2].
      cbn [snd] in IH. simpl. unfold timers in *. rewrite omap_app, Ht. simpl.
      f_equal. exact IH.
  - cbn [map]. rewrite take_nil. simpl. unfold timers in *.
    rewrite omap_app, Ht. reflexivity.
Qed.

(** C3. In a run of [ensureConnected], the timers armed before the
    attempts are: zero before the first attempt; after each failed attempt
    that is retried, the backoff interval drawn before that attempt when
    the attempt returned no retry-after hint, and the larger of that
    interval and the hint when it returned one. (One timer is armed per
    iteration the environment lets the loop run.) *)
Theorem ensureConnected_waits (its : list iteration) (c : wsClient) :
  timers (trace_of (ensureConnected its c))
  = take (length its)
      (0 :: map (fun p => if Defined (snd p)
                          then Z.max (fst p) (Duration (snd p))
                          else fst p)
                (failed_attempts its c)).
Proof. apply ensureConnected_loop_timers. Qed.

(** A 503 with [Retry-After: 10] while the backoff draws 500 ms: the second
    attempt waits ten seconds. *)
Example retry_after_beats_backoff :
  timers (trace_of (ensureConnected
            [ {| nextBackOff := 500000000;
                 ready := TimerFired (failWith errBadHandshake (Some resp503)) |};
              successIteration 750000000 (mkConn 1) ]
            startedClient))
  = [0; 10000000000].
Proof. reflexivity. Qed.

(** Without a hint the second attempt waits the backoff interval. *)
Example backoff_without_hint :
  timers (trace_of (ensureConnected
            [ {| nextBackOff := 500000000;
                 ready := TimerFired (failWith errBadHandshake None) |};
              successIteration 750000000 (mkConn 1) ]
            startedClient))
  = [0; 500000000].
Proof. reflexivity. Qed.

(** ** C2 and C6: the response chain *)

(** The whole effect of an attempt that follows a redirect. *)
Lemma tryConnectOnce_followed err r u check c :
  is3xx (StatusCode r) = true ->
  Location r = inl u ->
  CheckRedirect (CCallbacks (common c)) = Some check ->
  (forall req via resps, check req via resps = None) ->
  tryConnectOnce (failWith err (Some r)) c
  = (ExtractRetryAfterHeader r, Some err,
     set_url (rewriteScheme u) (set_responseChain (responseChain c ++ [r]) c),
     [ Dial (URL_String (url c));
       OnConnectFailed err;
       CheckRedirectCall (set_ReqURL u (Request_Clone (RespRequest r)))
                         (viaReq (responseChain c ++ [r])) (responseChain c ++ [r]);
       Debugf "%d redirect to %s" [ArgInt (StatusCode r); ArgURL (rewriteScheme u)] ]).
Proof.
  intros H3 Hloc Hcb Hacc. run_m. simpl. rewrite H3, Hloc. simpl. rewrite Hcb.
  simpl. rewrite Hacc. reflexivity.
Qed.

(** Starting from the chain the client holds, each of a run of
    consecutive followed redirects hands [CheckRedirect] the chain so far:
    the responses held at the start, then the redirects of the run up to
    and including the current one, in order. *)
Lemma CheckRedirect_receives_chain nb err check rs : forall interval c,
  CheckRedirect (CCallbacks (common c)) = Some check ->
  (forall req via resps, check req via resps = None) ->
  errors_Is_Canceled err = false ->
  Forall followable rs ->
  checkRedirectChains
    (trace_of (ensureConnected_loop (map (redirectIteration nb err) rs) interval c))
  = chainsFrom (responseChain c) rs.
Proof.
  induction rs as [|r rs IH]; intros interval c Hcb Hacc Hnc Hrs; [reflexivity|].
  inversion Hrs as [|? ? [H3 [u Hloc]] Hrs']; subst.
  cbn [map ensureConnected_loop redirectIteration nextBackOff ready chainsFrom].
  rewrite !trace_bind.
  change (state_of (emit (NewTimer interval) c)) with c.
  rewrite (tryConnectOnce_followed err r u check c H3 Hloc Hcb Hacc).
  cbn [result_of state_of trace_of fst snd].
  rewrite !trace_bind, Hnc, !trace_bind.
  cbn [emit modify state_of trace_of result_of fst snd].
  unfold checkRedirectChains in *. rewrite !omap_app. simpl.
  f_equal. apply IH; auto.
Qed.

(** When the client holds no response at the start of the run, the N-th
    redirect hands [CheckRedirect] exactly the N responses of the run. *)
Lemma CheckRedirect_receives_run_from_empty nb err check rs interval c :
  responseChain c = [] ->
  CheckRedirect (CCallbacks (common c)) = Some check ->
  (forall req via resps, check req via resps = None) ->
  errors_Is_Canceled err = false ->
  Forall followable rs ->
  checkRedirectChains
    (trace_of (ensureConnected_loop (map (redirectIteration nb err) rs) interval c))
  = chainsFrom [] rs.
Proof.
  intros Hempty Hcb Hacc Hnc Hrs.
  rewrite (CheckRedirect_receives_chain nb err check rs interval c Hcb Hacc Hnc Hrs).
  rewrite Hempty. reflexivity.
Qed.

(** C2. A redirect followed by a successful dial: [ensureConnected]
    returns nil and the client still holds the redirect response in its
    response chain; the chain is not cleared by the successful connection. *)
Theorem responseChain_not_cleared_on_success :
  let r := ensureConnected
             [ redirectIteration 500000000 errBadHandshake resp307;
               successIteration 750000000 (mkConn 1) ]
             startedClient in
  result_of r = Returned None /\
  conn (state_of r) = Some (mkConn 1) /\
  responseChain (state_of r) = [resp307].
Proof. repeat split. Qed.

(** C6. A first connection that follows one redirect, then, on the same
    client, a reconnection that meets a single redirect: the
    [CheckRedirect] call of that single redirect receives two responses,
    the stale one of the first connection and the current one. *)
Theorem CheckRedirect_receives_stale_responses :
  let first := ensureConnected
                 [ redirectIteration 500000000 errBadHandshake resp307;
                   successIteration 750000000 (mkConn 1) ]
                 startedClient in
  let again := ensureConnected
                 [ redirectIteration 500000000 errBadHandshake resp308;
                   successIteration 750000000 (mkConn 2) ]
                 (state_of first) in
  result_of first = Returned None /\
  checkRedirectChains (trace_of first) = [[resp307]] /\
  result_of again = Returned None /\
  checkRedirectChains (trace_of again) = [[resp307; resp308]].
Proof. repeat split. Qed.

(** ** C9: PrepareStart on the client NewWebSocket returns *)

Section PrepareStartProperties.
Context `{ClientCommonOps}.

Lemma NewWebSocket_senders logger : senders (NewWebSocket logger) = None.
Proof. reflexivity. Qed.

(** The loop keeps [senders] nil as long as it has not panicked, so
    every later assignment would panic as well. *)
Lemma PrepareStart_agents_nil_senders agents c :
  senders c = None ->
  agents <> [] ->
  exists p, PrepareStart_agents agents c = Panic p.
Proof.
  intros Hs Hne. destruct agents as [|[agent|] rest]; [congruence| |];
    simpl; [rewrite Hs|]; eauto.
Qed.

(** C9. [NewWebSocket] leaves [senders] nil, and for every settings with
    a non-empty agent list [PrepareStart] on that client panics instead
    of returning; when the first entry of the list is a non-nil agent,
    the panic is the assignment [c.senders[agent.InstanceUid] = sender]
    into the nil map. *)
Theorem PrepareStart_panics_on_nil_senders logger settings :
  SAgents settings <> [] ->
  senders (NewWebSocket logger) = None /\
  (exists p, PrepareStart settings (NewWebSocket logger) = Panic p) /\
  (forall agent rest,
      SAgents settings = Some agent :: rest ->
      PrepareStart settings (NewWebSocket logger) = Panic AssignmentToEntryInNilMap).
Proof.
  intros Hne. split; [reflexivity|]. split.
  - unfold PrepareStart.
    destruct (PrepareStart_agents_nil_senders (SAgents settings) (NewWebSocket logger)
                (NewWebSocket_senders logger) Hne) as [p Hp].
    rewrite Hp. eauto.
  - intros agent rest E. unfold PrepareStart. rewrite E. reflexivity.
Qed.
End PrepareStartProperties.

Lemma PrepareStart_panics_on_nil_senders_witness :
  @PrepareStart sampleOps
    {| OpAMPServerURL := "ws://host1/";
       SAgents := [Some {| AgentInstanceUid := "agent-1"; AgentDescription := "collector" |}] |}
    (@NewWebSocket sampleOps None)
  = Panic AssignmentToEntryInNilMap.
Proof.
  refine (proj2 (proj2 (@PrepareStart_panics_on_nil_senders sampleOps None
            {| OpAMPServerURL := "ws://host1/";
               SAgents := [Some {| AgentInstanceUid := "agent-1";
                                   AgentDescription := "collector" |}] |} _))
            _ _ eq_refl).
  discriminate.
Defined.

(** ** C7: termination of the receiver loop *)

Section ReceiverProperties.
Context `{Protobufs}.

Lemma ReceiverLoop_message r read msg steps :
  receiveMessage read = inl msg ->
  ReceiverLoop r (ReadCompleted read :: steps)
  = (processor r msg ++ fst (ReceiverLoop r steps),
     snd (ReceiverLoop r steps)).
Proof.
  intros E. cbn [ReceiverLoop]. rewrite E.
  destruct (ReceiverLoop r steps); reflexivity.
Qed.

(** While every step delivers a message the loop processes the messages
    in order and does not return. *)
Lemma ReceiverLoop_running r pre msgs :
  Forall2 (fun s msg => stepMessage s = Some msg) pre msgs ->
  ReceiverLoop r pre = (flat_map (processor r) msgs, false).
Proof.
  induction 1 as [|s msg pre msgs Hs _ IH]; [reflexivity|].
  destruct s as [| |read]; try discriminate.
  cbn [stepMessage] in Hs.
  destruct (receiveMessage read) as [m|e] eqn:E; [|discriminate].
  injection Hs as ->.
  rewrite (ReceiverLoop_message r read msg pre E), IH. reflexivity.
Qed.

(** The loop returns at the first step that delivers no message; the
    steps after it are not looked at. *)
Lemma ReceiverLoop_stops r pre msgs stop rest :
  Forall2 (fun s msg => stepMessage s = Some msg) pre msgs ->
  stepMessage stop = None ->
  ReceiverLoop r (pre ++ stop :: rest)
  = (flat_map (processor r) msgs
     ++ match stepError stop with
        | Some err =>
            if IsCloseError err [CloseNormalClosure] then []
            else [Errorf "Unexpected error while receiving: %v" [ArgErr err]]
        | None => []
        end
     ++ [CloseReceiverStopped], true).
Proof.
  induction 1 as [|s msg pre msgs Hs _ IH]; intros Hstop.
  - destruct stop as [| |read]; try reflexivity.
    cbn [stepMessage stepError] in *. cbn [app ReceiverLoop flat_map].
    destruct (receiveMessage read) as [m|e]; [discriminate|].
    destruct (IsCloseError e [CloseNormalClosure]); reflexivity.
  - destruct s as [| |read]; try discriminate.
    cbn [stepMessage] in Hs.
    destruct (receiveMessage read) as [m|e] eqn:E; [|discriminate].
    injection Hs as ->.
    rewrite <- app_comm_cons.
    rewrite (ReceiverLoop_message r read msg _ E), (IH Hstop).
    cbn [fst snd flat_map]. rewrite <- app_assoc. reflexivity.
Qed.

(** Frames that decode are steps that deliver their message. *)
Lemma decoded_frames_deliver frames msgs :
  Forall2 (fun bytes msg => DecodeWSMessage bytes = inl msg) frames msgs ->
  Forall2 (fun s msg => stepMessage s = Some msg)
          (map (fun bytes => ReadCompleted (inl bytes)) frames) msgs.
Proof.
  induction 1 as [|bytes msg frames msgs E _ IH]; cbn [map]; constructor; [|exact IH].
  cbn [stepMessage]. unfold receiveMessage. rewrite E. reflexivity.
Qed.

(** C7. After any number of frames that were read and decoded, the
    receiver loop is still running and has processed their messages in
    order. It returns at the next step exactly when that step is (c) a
    cancellation of its context, or a read that fails, or a frame that
    [DecodeWSMessage] rejects. (a) A read that fails with a normal
    WebSocket close is not logged; (b) any other read error is logged at
    error level, and so is a decoding error, wrapped in
    "cannot decode received message". Nothing after the step at which the
    loop returns is read or processed. *)
Theorem ReceiverLoop_terminates_exactly r frames msgs :
  let pre := map (fun bytes => ReadCompleted (inl bytes)) frames in
  let processed := flat_map (processor r) msgs in
  Forall2 (fun bytes msg => DecodeWSMessage bytes = inl msg) frames msgs ->
  (* no terminating condition: still running *)
  ReceiverLoop r pre = (processed, false) /\
  (* (a) normal close *)
  (forall text rest,
      ReceiverLoop r (pre ++ ReadCompleted (inr (CloseError CloseNormalClosure text)) :: rest)
      = (processed ++ [CloseReceiverStopped], true)) /\
  (* (b) any other read error *)
  (forall err rest,
      (forall text, err <> CloseError CloseNormalClosure text) ->
      ReceiverLoop r (pre ++ ReadCompleted (inr err) :: rest)
      = (processed
         ++ [Errorf "Unexpected error while receiving: %v" [ArgErr err];
             CloseReceiverStopped], true)) /\
  (* (b) a decoding error *)
  (forall bytes derr rest,
      DecodeWSMessage bytes = inr derr ->
      ReceiverLoop r (pre ++ ReadCompleted (inl bytes) :: rest)
      = (processed
         ++ [Errorf "Unexpected error while receiving: %v"
               [ArgErr (WrapError "cannot decode received message: %w" derr)];
             CloseReceiverStopped], true)) /\
  (* (c) cancellation of the context *)
  (forall stop rest,
      stop = CtxDoneAtLoopHead \/ stop = CtxDoneDuringRead ->
      ReceiverLoop r (pre ++ stop :: rest)
      = (processed ++ [CloseReceiverStopped], true)) /\
  (* these are the only steps at which the loop returns *)
  (forall stop,
      snd (ReceiverLoop r (pre ++ [stop])) = true <->
      stop = CtxDoneAtLoopHead \/ stop = CtxDoneDuringRead \/
      (exists err, stop = ReadCompleted (inr err)) \/
      (exists bytes derr, stop = ReadCompleted (inl bytes) /\
                          DecodeWSMessage bytes = inr derr)).
Proof.
  cbv zeta. intros Hframes.
  pose proof (decoded_frames_deliver frames msgs Hframes) as Hpre.
  split; [apply ReceiverLoop_running, Hpre|].
  split; [|split; [|split; [|split]]].
  - intros text rest.
    rewrite (ReceiverLoop_stops r _ msgs _ rest Hpre); reflexivity.
  - intros err rest Hne.
    rewrite (ReceiverLoop_stops r _ msgs _ rest Hpre); [|reflexivity].
    cbn [stepError receiveMessage].
    replace (IsCloseError err [CloseNormalClosure]) with false; [reflexivity|].
    destruct err as [ | | |code text| ]; try reflexivity.
    cbn [IsCloseError existsb orb]. rewrite orb_false_r.
    symmetry. apply Z.eqb_neq. intros ->. exact (Hne text eq_refl).
  - intros bytes derr rest E.
    rewrite (ReceiverLoop_stops r _ msgs _ rest Hpre).
    + cbn [stepError]. unfold receiveMessage. rewrite E. reflexivity.
    + cbn [stepMessage]. unfold receiveMessage. rewrite E. reflexivity.
  - intros stop rest [-> | ->];
      rewrite (ReceiverLoop_stops r _ msgs _ rest Hpre); reflexivity.
  - intros stop. split.
    + destruct stop as [| |[bytes|err]]; auto.
      * destruct (DecodeWSMessage bytes) as [m|derr] eqn:E; [|eauto 8].
        assert (Hall : Forall2 (fun s msg => stepMessage s = Some msg)
                         (map (fun bytes => ReadCompleted (inl bytes)) frames
                          ++ [ReadCompleted (inl bytes)]) (msgs ++ [m])).
        { apply Forall2_app; [exact Hpre|]. constructor; [|constructor].
          cbn [stepMessage]. unfold receiveMessage. rewrite E. reflexivity. }
        rewrite (ReceiverLoop_running r _ _ Hall). discriminate.
      * eauto 8.
    + intros Hstop.
      rewrite (ReceiverLoop_stops r _ msgs stop [] Hpre); [reflexivity|].
      destruct Hstop as [-> | [-> | [(err & ->) | (bytes & derr & -> & E)]]];
        try reflexivity.
      cbn [stepMessage]. unfold receiveMessage. rewrite E. reflexivity.
Qed.
End ReceiverProperties.

Lemma ReceiverLoop_terminates_exactly_witness :
  @ReceiverLoop sampleProtobufs (@NewWSReceiver sampleProtobufs acceptingCallbacks)
    [ReadCompleted (inl [0]); ReadCompleted (inl []); ReadCompleted (inl [1])]
  = ([DispatchPayload "";
      Errorf "Unexpected error while receiving: %v"
        [ArgErr (WrapError "cannot decode received message: %w"
                   (ErrorString "malformed frame"))];
      CloseReceiverStopped], true).
Proof.
  refine (proj1 (proj2 (proj2 (proj2 (@ReceiverLoop_terminates_exactly sampleProtobufs
            (@NewWSReceiver sampleProtobufs acceptingCallbacks) [[0]]
            [{| Flags := 0; Payload := "" |}] _))))
            [] (ErrorString "malformed frame") [ReadCompleted (inl [1])] eq_refl).
  repeat constructor.
Defined.

(** ** C8: the restart flag *)

Section ProcessorProperties.
Context `{Protobufs}.

(** C8. When the [RequestRestart] bit of the flags is set, the processor
    calls [OnRestartRequested] exactly once; an error returned by the
    callback is logged at error level, and the receiver loop goes on with
    the steps that follow. When the flags field is zero,
    [OnRestartRequested] is not called. *)
Theorem processReceivedMessage_restart cb msg :
  (Z.land (Flags msg) ServerToAgent_RequestRestart <> 0 ->
     restartCalls (processReceivedMessage cb msg) = 1%nat /\
     (forall err, OnRestartRequested cb = Some err ->
        errorLogs (processReceivedMessage cb msg)
        = [Errorf "Failed to handle restart request: %v" [ArgErr err]]) /\
     (forall read steps, receiveMessage read = inl msg ->
        ReceiverLoop (NewWSReceiver cb) (ReadCompleted read :: steps)
        = (processReceivedMessage cb msg ++ fst (ReceiverLoop (NewWSReceiver cb) steps),
           snd (ReceiverLoop (NewWSReceiver cb) steps)))) /\
  (Flags msg = 0 -> restartCalls (processReceivedMessage cb msg) = 0%nat).
Proof.
  split.
  - intros Hset. apply Z.eqb_neq in Hset. unfold processReceivedMessage.
    rewrite Hset. split; [|split].
    + destruct (OnRestartRequested cb); reflexivity.
    + intros err ->. reflexivity.
    + intros read steps E.
      rewrite (ReceiverLoop_message (NewWSReceiver cb) read msg steps E).
      cbn [NewWSReceiver processor]. unfold processReceivedMessage.
      rewrite Hset. reflexivity.
  - intros Hzero. unfold processReceivedMessage. rewrite Hzero, Z.land_0_l.
    reflexivity.
Qed.
End ProcessorProperties.

Lemma processReceivedMessage_restart_witness :
  restartCalls (@processReceivedMessage sampleProtobufs failingRestartCallbacks
                  {| Flags := 1; Payload := "" |}) = 1%nat
  /\ restartCalls (@processReceivedMessage sampleProtobufs failingRestartCallbacks
                     {| Flags := 0; Payload := "" |}) = 0%nat.
Proof.
  split.
  - refine (proj1 (proj1 (@processReceivedMessage_restart sampleProtobufs
              failingRestartCallbacks {| Flags := 1; Payload := "" |}) _)).
    discriminate.
  - exact (proj2 (@processReceivedMessage_restart sampleProtobufs
              failingRestartCallbacks {| Flags := 0; Payload := "" |}) eq_refl).
Defined.

(** ** C4: the shutdown coordinator *)

Ltac case_leb :=
  repeat match goal with
  | |- context [?a <=? ?b] => destruct (Z.leb_spec a b)
  end.

(** The inner [select] between the receiver and the timeout. *)
Lemma select2_timeout_cases t r T pick :
  0 < T ->
  (r < t + T -> select2 t (Some r) (Some (t + T)) pick = Some (Z.max t r, true)) /\
  (t + T < r -> select2 t (Some r) (Some (t + T)) pick = Some (t + T, false)) /\
  (r = t + T -> select2 t (Some r) (Some (t + T)) pick = Some (t + T, pick)).
Proof.
  intros HT. unfold select2. repeat split; intros Hr; case_leb; simpl;
    try lia; do 2 f_equal; lia.
Qed.

Lemma select2_never t T pick :
  0 < T -> select2 t None (Some (t + T)) pick = Some (t + T, false).
Proof. intros HT. unfold select2. do 2 f_equal. lia. Qed.

(** C4. A coordinator started at [t0], in every environment.

    When it sees the sender stopped first, at the instant [t]: if
    [StoppingErr()] is non-nil it cancels the receiver's context at [t] and
    ends exactly when the receiver has stopped (never, if the receiver
    never stops). If [StoppingErr()] is nil it waits for the receiver until
    the deadline [t + connShutdownTimeout] (a timeout that is not positive
    expires at once): when the receiver stops before the deadline the
    coordinator ends then and cancels nothing; when it does not, the
    coordinator cancels the receiver's context exactly at the deadline and
    ends exactly when the receiver has stopped; when the receiver stops
    at the deadline itself, the runtime picks one of the two.

    When it sees the receiver stopped first, at [t], it cancels the
    sender's context at [t] and ends exactly when the sender has
    stopped. *)
Theorem coordinator_shutdown_order (c : wsClient) (env : coord_env) (t0 : Z) :
  let events := fst (coordinator c env t0) in
  let finish := snd (coordinator c env t0) in
  let deadline t := t + Z.max 0 (connShutdownTimeout c) in
  (* the instant at which a wait for the receiver, started at [t] right
     after its context was cancelled, is over *)
  let receiverGone t :=
    match receiverStoppedAt env, receiverStopDelay env with
    | Some r, Some d => Some (Z.max t (Z.min r (t + d)))
    | Some r, None => Some (Z.max t r)
    | None, Some d => Some (Z.max t (t + d))
    | None, None => None
    end in
  let senderGone t :=
    match senderStoppedAt env, senderStopDelay env with
    | Some s, Some d => Some (Z.max t (Z.min s (t + d)))
    | Some s, None => Some (Z.max t s)
    | None, Some d => Some (Z.max t (t + d))
    | None, None => None
    end in
  (* the sender is seen stopped first *)
  (forall ts,
     senderStoppedAt env = Some ts ->
     (receiverStoppedAt env = None \/
      exists tr, receiverStoppedAt env = Some tr /\
                 (Z.max t0 ts < Z.max t0 tr \/
                  (Z.max t0 tr = Z.max t0 ts /\ pickOuter env = true))) ->
     let t := Z.max t0 ts in
     (forall err, StoppingErr env = Some err ->
        stopReceiverInstants events = [t] /\
        stopSenderInstants events = [] /\
        finish = receiverGone t) /\
     (StoppingErr env = None ->
        stopSenderInstants events = [] /\
        (forall r, receiverStoppedAt env = Some r -> Z.max t r < deadline t ->
           stopReceiverInstants events = [] /\
           finish = Some (Z.max t r)) /\
        (receiverStoppedAt env = None \/
         (exists r, receiverStoppedAt env = Some r /\ deadline t < Z.max t r) ->
           stopReceiverInstants events = [deadline t] /\
           finish = receiverGone (deadline t)) /\
        (forall r, receiverStoppedAt env = Some r -> Z.max t r = deadline t ->
           finish = Some (deadline t) /\
           (stopReceiverInstants events = [] \/
            stopReceiverInstants events = [deadline t])))) /\
  (* the receiver is seen stopped first *)
  (forall tr,
     receiverStoppedAt env = Some tr ->
     (senderStoppedAt env = None \/
      exists ts, senderStoppedAt env = Some ts /\
                 (Z.max t0 tr < Z.max t0 ts \/
                  (Z.max t0 ts = Z.max t0 tr /\ pickOuter env = false))) ->
     let t := Z.max t0 tr in
     stopSenderInstants events = [t] /\
     stopReceiverInstants events = [] /\
     finish = senderGone t).
Proof.
  cbv zeta. split.
  - intros ts Hs Hfirst.
    assert (Hsel : select2 t0 (senderStoppedAt env) (receiverStoppedAt env) (pickOuter env)
                   = Some (Z.max t0 ts, true)).
    { rewrite Hs. unfold select2.
      destruct Hfirst as [-> | (tr & -> & [Hlt | [Heq ->]])]; [reflexivity| |];
        case_leb; cbn [andb]; try lia; do 2 f_equal; lia. }
    unfold coordinator. rewrite Hsel. split.
    + intros err ->. cbn [fst snd]. split; [reflexivity|]. split; [reflexivity|].
      unfold receiverStoppedAfterCancel, await, earliest.
      destruct (receiverStoppedAt env), (receiverStopDelay env); reflexivity.
    + intros ->. split; [|split; [|split]].
      * destruct (select2 (Z.max t0 ts) _ _ _) as [[t' []]|]; reflexivity.
      * intros r Hr Hlt. rewrite Hr. unfold select2.
        case_leb; cbn [andb fst snd]; try lia;
          (split; [reflexivity|]); do 2 f_equal; lia.
      * intros [Hr | (r & Hr & Hlt)]; rewrite Hr; unfold select2.
        -- cbn [fst snd]. replace (Z.max (Z.max t0 ts) (Z.max t0 ts + connShutdownTimeout c))
             with (Z.max t0 ts + Z.max 0 (connShutdownTimeout c)) by lia.
           split; [reflexivity|].
           unfold receiverStoppedAfterCancel, await, earliest. rewrite Hr.
           destruct (receiverStopDelay env); reflexivity.
        -- case_leb; cbn [andb fst snd]; try lia;
             replace (Z.max (Z.max t0 ts)
                        (Z.min r (Z.max t0 ts + connShutdownTimeout c)))
               with (Z.max t0 ts + Z.max 0 (connShutdownTimeout c)) by lia;
             (split; [reflexivity|]);
             unfold receiverStoppedAfterCancel, await, earliest; rewrite Hr;
             destruct (receiverStopDelay env); reflexivity.
      * intros r Hr Heq. rewrite Hr. unfold select2.
        case_leb; cbn [andb fst snd]; try lia.
        replace (Z.max (Z.max t0 ts) (Z.min r (Z.max t0 ts + connShutdownTimeout c)))
          with (Z.max t0 ts + Z.max 0 (connShutdownTimeout c)) by lia.
        destruct (pickInner env); cbn [fst snd].
        -- split; [reflexivity|]. left. reflexivity.
        -- split; [|right; reflexivity].
           unfold receiverStoppedAfterCancel, await, earliest. rewrite Hr.
           destruct (receiverStopDelay env); f_equal; lia.
  - intros tr Hr Hfirst.
    assert (Hsel : select2 t0 (senderStoppedAt env) (receiverStoppedAt env) (pickOuter env)
                   = Some (Z.max t0 tr, false)).
    { rewrite Hr. unfold select2.
      destruct Hfirst as [-> | (ts & -> & [Hlt | [Heq ->]])]; [reflexivity| |];
        case_leb; cbn [andb]; try lia; do 2 f_equal; lia. }
    unfold coordinator. rewrite Hsel. cbn [fst snd].
    split; [reflexivity|]. split; [reflexivity|].
    unfold senderStoppedAfterCancel, await, earliest.
    destruct (senderStoppedAt env), (senderStopDelay env); reflexivity.
Qed.

Lemma coordinator_shutdown_order_witness :
  stopReceiverInstants (fst (coordinator startedClient silentPeer 0)) = [10 + 5000000000]
  /\ snd (coordinator startedClient silentPeer 0) = Some (10 + 5000000000 + 1).
Proof.
  exact (proj1 (proj2 (proj2 (proj2 (proj1
           (coordinator_shutdown_order startedClient silentPeer 0)
           10 eq_refl (or_introl eq_refl)) eq_refl)))
           (or_introl eq_refl)).
Defined.

(** ** C1: the end of a cycle *)

(** The supervisor never waits: from any shared state it can run all its
    events without any other goroutine taking a step. *)
Lemma supervisor_runs_alone p : forall w, schedule p w [] (run_alone p w).
Proof.
  induction p as [|e p IH]; intros w.
  - apply schedule_done.
  - apply schedule_supervisor, IH.
Qed.

(** No event of the supervisor stops a running task: only the task's own
    step closes its stopped channel. *)
Lemma supervisor_step_keeps_sender_running e w id :
  senderTask w !! id = Some TaskRunning ->
  senderTask (supervisor_step e w) !! id = Some TaskRunning.
Proof.
  intros Hrun. destruct e; simpl; try exact Hrun.
  destruct (decide (id0 = id)) as [->|Hne].
  - apply lookup_insert_eq.
  - rewrite lookup_insert_ne by exact Hne. exact Hrun.
Qed.

Lemma supervisor_step_keeps_receiver_running e w id :
  receiverTask w !! id = Some TaskRunning ->
  receiverTask (supervisor_step e w) !! id = Some TaskRunning.
Proof.
  intros Hrun. destruct e; simpl; try exact Hrun.
  destruct (decide (id0 = id)) as [->|Hne].
  - apply lookup_insert_eq.
  - rewrite lookup_insert_ne by exact Hne. exact Hrun.
Qed.

Lemma last_app_snoc {A} (l1 l2 : list A) x : last (l1 ++ l2 ++ [x]) = Some x.
Proof. rewrite app_assoc. apply last_snoc. Qed.

(** Whenever [ensureConnected] returns nil, [runOneCycle] returns and its
    last action is to close the connection stored by the attempt that
    succeeded. *)
Lemma runOneCycle_closes_connection env c :
  result_of (ensureConnected (connectIts env) c) = Returned None ->
  result_of (runOneCycle env c) = true /\
  last (trace_of (runOneCycle env c))
  = Some (ConnClose (conn (state_of (ensureConnected (connectIts env) c)))).
Proof.
  intros Hok. unfold runOneCycle.
  rewrite result_bind, trace_bind, Hok.
  set (c1 := state_of (ensureConnected (connectIts env) c)).
  set (t1 := trace_of (ensureConnected (connectIts env) c)).
  rewrite result_bind, trace_bind.
  change (result_of (get c1)) with c1. change (state_of (get c1)) with c1.
  change (trace_of (get c1)) with (@nil event). cbn [app].
  destruct (stoppingAfterConnect env).
  { split; [reflexivity|]. apply (last_app_snoc t1 []). }
  rewrite result_bind, trace_bind.
  destruct (prepareFirstMessage env) as [err|].
  { split; [reflexivity|].
    apply (last_app_snoc t1 [PrepareFirstMessageCall; Errorf _ _]). }
  rewrite result_bind, trace_bind.
  cbn [emit state_of result_of trace_of fst snd].
  set (rs := startSenders env (conn c1) (rangeSenders c1) c1).
  destruct (result_of rs); cbn [negb]; split;
    try (rewrite !result_bind; reflexivity);
    rewrite !trace_bind; cbn [emit ret trace_of snd];
    rewrite app_nil_r, !app_assoc; apply last_snoc.
Qed.

Lemma tryConnectOnce_senders a c : senders (state_of (tryConnectOnce a c)) = senders c.
Proof. destruct a as [[k|err [r|]] s1 s2]; crunch; reflexivity. Qed.

Lemma ensureConnected_loop_senders its : forall interval c,
  senders (state_of (ensureConnected_loop its interval c)) = senders c.
Proof.
  induction its as [|[nb rdy] its IH]; intros interval c; [reflexivity|].
  cbn [ensureConnected_loop nextBackOff ready].
  destruct rdy as [a|err]; [|reflexivity].
  rewrite !state_bind.
  change (state_of (emit (NewTimer interval) c)) with c.
  pose proof (tryConnectOnce_senders a c) as Hs.
  destruct (result_of (tryConnectOnce a c)) as [ra [err|]]; [|exact Hs].
  rewrite !state_bind.
  destruct (errors_Is_Canceled err).
  - rewrite !state_bind. exact Hs.
  - rewrite !state_bind. rewrite IH. exact Hs.
Qed.

Lemma startSenders_all_start env k l c :
  (forall id, senderStartErr env id = None) ->
  startSenders env k l c = (true, c, map (fun p => SenderStart (fst p) k) l).
Proof.
  intros Hok. induction l as [|[id s] l IH]; [reflexivity|].
  cbn [startSenders map fst]. rewrite Hok.
  unfold bind at 1. cbn [emit]. rewrite IH. reflexivity.
Qed.

Lemma startReceivers_trace k l c :
  startReceivers k l c
  = (tt, c, flat_map (fun p => [ReceiverStart (fst p) k; GoCoordinator (fst p)]) l).
Proof.
  induction l as [|[id s] l IH]; [reflexivity|].
  cbn [startReceivers flat_map fst].
  unfold bind at 1. cbn [emit]. unfold bind at 1. cbn [emit]. rewrite IH. reflexivity.
Qed.

Lemma run_alone_keeps_sender p : forall w id,
  senderTask w !! id = Some TaskRunning ->
  senderTask (run_alone p w) !! id = Some TaskRunning.
Proof.
  induction p as [|e p IH]; intros w id Hrun; [exact Hrun|].
  change (senderTask (run_alone p (supervisor_step e w)) !! id = Some TaskRunning).
  apply IH, supervisor_step_keeps_sender_running, Hrun.
Qed.

Lemma run_alone_keeps_receiver p : forall w id,
  receiverTask w !! id = Some TaskRunning ->
  receiverTask (run_alone p w) !! id = Some TaskRunning.
Proof.
  induction p as [|e p IH]; intros w id Hrun; [exact Hrun|].
  change (receiverTask (run_alone p (supervisor_step e w)) !! id = Some TaskRunning).
  apply IH, supervisor_step_keeps_receiver_running, Hrun.
Qed.

Lemma run_alone_starts_sender p : forall w id k,
  In (SenderStart id k) p -> senderTask (run_alone p w) !! id = Some TaskRunning.
Proof.
  induction p as [|e p IH]; intros w id k Hin; [destruct Hin|].
  change (senderTask (run_alone p (supervisor_step e w)) !! id = Some TaskRunning).
  destruct Hin as [->|Hin].
  - apply run_alone_keeps_sender. simpl. apply lookup_insert_eq.
  - eapply IH, Hin.
Qed.

Lemma run_alone_starts_receiver p : forall w id k,
  In (ReceiverStart id k) p -> receiverTask (run_alone p w) !! id = Some TaskRunning.
Proof.
  induction p as [|e p IH]; intros w id k Hin; [destruct Hin|].
  change (receiverTask (run_alone p (supervisor_step e w)) !! id = Some TaskRunning).
  destruct Hin as [->|Hin].
  - apply run_alone_keeps_receiver. simpl. apply lookup_insert_eq.
  - eapply IH, Hin.
Qed.

Lemma run_alone_app p q w : run_alone (p ++ q) w = run_alone q (run_alone p w).
Proof. apply foldl_app. Qed.

Lemma run_alone_snoc_close q k w : connClosed (run_alone (q ++ [ConnClose k]) w) = true.
Proof. rewrite run_alone_app. reflexivity. Qed.

(** In every cycle that connects, is not stopping, prepares its first
    message and starts all its senders, there is a schedule in which
    [runOneCycle] has returned and closed the connection while the sender
    and the receiver of any registered agent have not stopped. *)
Lemma runOneCycle_never_joins env c m id s :
  result_of (ensureConnected (connectIts env) c) = Returned None ->
  stoppingAfterConnect env = false ->
  prepareFirstMessage env = None ->
  (forall id, senderStartErr env id = None) ->
  senders c = Some m ->
  m !! id = Some s ->
  exists w,
    schedule (trace_of (runOneCycle env c)) world0 [] w /\
    connClosed w = true /\
    senderTask w !! id = Some TaskRunning /\
    receiverTask w !! id = Some TaskRunning.
Proof.
  intros Hok Hns Hprep Hstart Hm Hid.
  exists (run_alone (trace_of (runOneCycle env c)) world0).
  split; [apply supervisor_runs_alone|].
  unfold runOneCycle. rewrite trace_bind, Hok.
  set (c1 := state_of (ensureConnected (connectIts env) c)).
  set (t1 := trace_of (ensureConnected (connectIts env) c)).
  rewrite trace_bind.
  change (result_of (get c1)) with c1. change (state_of (get c1)) with c1.
  change (trace_of (get c1)) with (@nil event). cbn [app].
  destruct (stoppingAfterConnect env); [discriminate|].
  rewrite trace_bind.
  destruct (prepareFirstMessage env); [discriminate|].
  rewrite trace_bind.
  change (state_of (emit PrepareFirstMessageCall c1)) with c1.
  rewrite (startSenders_all_start env (conn c1) (rangeSenders c1) c1 Hstart).
  change (result_of (true, c1, map (fun p => SenderStart p.1 (conn c1)) (rangeSenders c1)))
    with true.
  cbn [negb]. rewrite !trace_bind, startReceivers_trace.
  cbn [emit ret state_of result_of trace_of fst snd app].
  assert (Hin : In (id, s) (rangeSenders c1)).
  { unfold rangeSenders, c1, ensureConnected.
    rewrite ensureConnected_loop_senders, Hm.
    apply list_elem_of_In, elem_of_map_to_list, Hid. }
  set (l := rangeSenders c1) in *.
  split; [|split].
  - change [StopReceiver; StopSender; ConnClose (conn c1)]
      with ([StopReceiver; StopSender] ++ [ConnClose (conn c1)]).
    rewrite !app_comm_cons, !app_assoc. apply run_alone_snoc_close.
  - apply (run_alone_starts_sender _ _ id (conn c1)).
    apply in_or_app. right. right. apply in_or_app. left.
    apply in_map_iff. exists (id, s). auto.
  - apply (run_alone_starts_receiver _ _ id (conn c1)).
    apply in_or_app. right. right. apply in_or_app. right.
    apply in_or_app. left.
    apply in_flat_map. exists (id, s). split; [exact Hin|]. left. reflexivity.
Qed.

(** The events of the supervisor in a healthy cycle with one agent. *)
Lemma runOneCycle_healthy_trace :
  runOneCycle healthyCycle clientWithSender
  = (true,
     set_conn (Some (mkConn 1)) clientWithSender,
     [ NewTimer 0; Dial "ws://host1/"; OnConnect;
       PrepareFirstMessageCall;
       SenderStart "agent-1" (Some (mkConn 1));
       ReceiverStart "agent-1" (Some (mkConn 1));
       GoCoordinator "agent-1";
       StopReceiver; StopSender; ConnClose (Some (mkConn 1)) ]).
Proof. vm_compute. reflexivity. Qed.

(** C1. A healthy cycle with one agent: [runOneCycle] obtains a
    connection, starts the sender and the receiver, spawns the
    coordinator, and returns at once, cancelling both contexts and closing
    the connection; it does not wait for the sender or the receiver. There
    is a schedule in which [runOneCycle] has returned and the connection
    is closed while the sender and the receiver have not stopped. *)
Theorem runOneCycle_returns_before_tasks_stop :
  let r := runOneCycle healthyCycle clientWithSender in
  result_of r = true /\
  last (trace_of r) = Some (ConnClose (Some (mkConn 1))) /\
  exists w,
    schedule (trace_of r) world0 [] w /\
    connClosed w = true /\
    senderTask w !! "agent-1" = Some TaskRunning /\
    receiverTask w !! "agent-1" = Some TaskRunning.
Proof.
  cbv zeta. rewrite runOneCycle_healthy_trace.
  split; [reflexivity|]. split; [reflexivity|].
  eexists. split; [apply supervisor_runs_alone|].
  repeat split.
Qed.

(* ===================================================================== *)
(** * Further properties of the embedded code *)
(* ===================================================================== *)

(** ** Single attempts and redirects *)

(** X4. A call of [CheckRedirect] made by a connection attempt is the
    only one of that attempt and comes from a 3xx response with a valid
    Location. The request it receives is the failed request with its URL
    set to the Location as received (the scheme is not rewritten yet);
    the responses are the client's chain followed by the current response;
    [via] lists the requests of these responses, one per response. *)
Theorem CheckRedirect_call_arguments a c req via resps :
  In (req, via, resps) (checkRedirectCalls (trace_of (tryConnectOnce a c))) ->
  exists err resp redirect,
    dial a = DialFail err (Some resp) /\
    is3xx (StatusCode resp) = true /\
    Location resp = inl redirect /\
    req = set_ReqURL redirect (RespRequest resp) /\
    resps = responseChain c ++ [resp] /\
    via = map RespRequest resps /\
    length via = length resps /\
    checkRedirectCalls (trace_of (tryConnectOnce a c)) = [(req, via, resps)].
Proof.
  destruct a as [[k|err [r|]] s1 s2]; crunch; intros Hin;
    try contradiction;
    (destruct Hin as [Hin|[]]; injection Hin as <- <- <-;
     exists err, r; eexists; repeat split; eauto;
     unfold viaReq; rewrite ?length_map; reflexivity).
Qed.

(** X8. A connection attempt leaves the client's URL as it was, except
    when the dial fails with a 3xx response whose Location is valid and
    whose redirect [CheckRedirect] accepts; the URL is then the Location
    with its scheme rewritten. *)
Theorem tryConnectOnce_url_changes_only_on_followed_redirect a c :
  url (state_of (tryConnectOnce a c)) = url c \/
  exists err resp redirect,
    dial a = DialFail err (Some resp) /\
    is3xx (StatusCode resp) = true /\
    Location resp = inl redirect /\
    redirectAccepted c resp redirect /\
    url (state_of (tryConnectOnce a c)) = rewriteScheme redirect.
Proof.
  destruct a as [[k|err [r|]] s1 s2]; crunch; auto; right;
    exists err, r; eexists; unfold redirectAccepted;
    repeat match goal with H : CheckRedirect _ = _ |- _ => rewrite H end;
    repeat split; eauto.
Qed.

(** X5. When [CheckRedirect] rejects a redirect, the attempt returns the
    rejection wrapped in a [url.Error] (operation Get, the Location as
    URL) together with the retry-after header of the response. The
    client's URL and connection are unchanged, the response stays appended
    to the chain, and [OnConnectFailed] is called once with the dial error
    (never with the rejection), or not at all when the client is stopping
    after the dial. *)
Theorem rejected_redirect_keeps_url a c err resp redirect check rej :
  dial a = DialFail err (Some resp) ->
  is3xx (StatusCode resp) = true ->
  Location resp = inl redirect ->
  CheckRedirect (CCallbacks (common c)) = Some check ->
  check (set_ReqURL redirect (RespRequest resp))
        (viaReq (responseChain c ++ [resp])) (responseChain c ++ [resp]) = Some rej ->
  let r := tryConnectOnce a c in
  result_of r = (ExtractRetryAfterHeader resp,
                 Some (UrlError "Get" (URL_String redirect) rej)) /\
  url (state_of r) = url c /\
  conn (state_of r) = conn c /\
  responseChain (state_of r) = responseChain c ++ [resp] /\
  connectFailedCalls (trace_of r) = (if stoppingAfterDial a then [] else [err]).
Proof.
  destruct a as [d s1 s2]; simpl; intros -> H3 Hloc Hcb Hrej.
  run_m. destruct s1; simpl; rewrite H3, Hloc; simpl; rewrite Hcb; simpl;
    unfold Request_Clone in *; rewrite Hrej; repeat split.
Qed.

(** X6. When a 3xx response has no valid Location, the attempt returns
    the error of [resp.Location()] together with the retry-after header,
    logs it at error level, does not call [CheckRedirect], leaves the URL
    unchanged and keeps the response appended to the chain;
    [OnConnectFailed] is called once with the dial error unless the client
    is stopping after the dial. *)
Theorem invalid_location_keeps_url a c err resp lerr :
  dial a = DialFail err (Some resp) ->
  is3xx (StatusCode resp) = true ->
  Location resp = inr lerr ->
  let r := tryConnectOnce a c in
  result_of r = (ExtractRetryAfterHeader resp, Some lerr) /\
  url (state_of r) = url c /\
  responseChain (state_of r) = responseChain c ++ [resp] /\
  checkRedirectCalls (trace_of r) = [] /\
  errorLogs (trace_of r)
  = [Errorf "%d redirect, but no valid location: %s" [ArgInt (StatusCode resp); ArgErr lerr]] /\
  connectFailedCalls (trace_of r) = (if stoppingAfterDial a then [] else [err]).
Proof.
  destruct a as [d s1 s2]; simpl; intros -> H3 Hloc.
  run_m. destruct s1; simpl; rewrite H3, Hloc; repeat split.
Qed.

(** X7. The scheme rewrite at the end of [handleRedirect] never yields
    [http] or [https], keeps host and path, is idempotent, and changes
    nothing when the scheme is neither [http] nor [https]. *)
Theorem rewriteScheme_normalises u :
  Scheme (rewriteScheme u) <> "http" /\
  Scheme (rewriteScheme u) <> "https" /\
  Host (rewriteScheme u) = Host u /\
  Path (rewriteScheme u) = Path u /\
  rewriteScheme (rewriteScheme u) = rewriteScheme u /\
  (Scheme u <> "http" -> Scheme u <> "https" -> rewriteScheme u = u).
Proof.
  unfold rewriteScheme.
  destruct (String.eqb_spec (Scheme u) "http") as [E1|N1];
    [|destruct (String.eqb_spec (Scheme u) "https") as [E2|N2]].
  - repeat split; try discriminate. intros N; contradiction.
  - repeat split; try discriminate. intros _ N; contradiction.
  - repeat split; try assumption.
    destruct (String.eqb_spec (Scheme u) "http"); [contradiction|].
    destruct (String.eqb_spec (Scheme u) "https"); [contradiction|]. reflexivity.
Qed.

(** X9. A connection attempt calls [OnConnectFailed] at most twice and
    only with the error of the failed dial; it does not call it when the
    dial succeeds, nor when the client is stopping at both reads of the
    flag. *)
Theorem OnConnectFailed_calls_bounded a c :
  let calls := connectFailedCalls (trace_of (tryConnectOnce a c)) in
  (length calls <= 2)%nat /\
  (forall e, In e calls -> exists resp, dial a = DialFail e resp) /\
  (stoppingAfterDial a = true -> stoppingAtDefer a = true -> calls = []) /\
  (forall k, dial a = DialOk k -> calls = []).
Proof.
  destruct a as [[k|err [r|]] s1 s2]; crunch; repeat split;
    try (simpl; lia); try discriminate; try reflexivity;
    try (intros ? HinCalls; simpl in HinCalls; intuition (subst; eauto)).
Qed.

(** X10. A connection attempt returns a nil error exactly when the dial
    succeeded. It then stores the new connection, calls [OnConnect] once
    and returns no retry-after. When the dial fails, the stored connection
    is untouched, [OnConnect] is not called, and the returned retry-after
    is the header of the response whenever a response is attached (3xx
    responses included), and undefined otherwise. *)
Theorem tryConnectOnce_result a c :
  let r := tryConnectOnce a c in
  (snd (result_of r) = None <-> exists k, dial a = DialOk k) /\
  match dial a with
  | DialOk k =>
      conn (state_of r) = Some k /\ onConnectCalls (trace_of r) = 1%nat /\
      fst (result_of r) = NoDuration
  | DialFail err resp =>
      conn (state_of r) = conn c /\ onConnectCalls (trace_of r) = 0%nat /\
      fst (result_of r)
      = match resp with
        | Some resp => ExtractRetryAfterHeader resp
        | None => NoDuration
        end
  end.
Proof.
  destruct a as [[k|err [r|]] s1 s2]; crunch; repeat split;
    try discriminate; eauto; try (intros [k Hk]; discriminate).
Qed.

(** ** The connect loop *)

(** One iteration of the loop whose timer fires, in terms of the attempt
    it makes. *)
Lemma ensureConnected_loop_attempt nb a its interval c :
  ensureConnected_loop (mkIteration nb (TimerFired a) :: its) interval c
  = match snd (result_of (tryConnectOnce a c)) with
    | None =>
        (Returned None, state_of (tryConnectOnce a c),
         NewTimer interval :: trace_of (tryConnectOnce a c))
    | Some err =>
        let c1 := set_lastInternalErr (Some err) (state_of (tryConnectOnce a c)) in
        if errors_Is_Canceled err then
          (Returned (Some err), c1,
           NewTimer interval :: trace_of (tryConnectOnce a c)
             ++ [Debugf "Client is stopped, will not try anymore." []])
        else
          let r2 := ensureConnected_loop its
                      (wait_after nb (fst (result_of (tryConnectOnce a c)))) c1 in
          (result_of r2, state_of r2,
           NewTimer interval :: trace_of (tryConnectOnce a c)
             ++ Errorf "Connection failed (%v), will retry." [ArgErr err] :: trace_of r2)
    end.
Proof.
  cbn [ensureConnected_loop nextBackOff ready].
  unfold bind, emit, modify, ret, result_of, state_of, trace_of.
  destruct (tryConnectOnce a c) as [[[ra [err|]] c1] t1]; cbn [fst snd].
  - destruct (errors_Is_Canceled err).
    + simpl. reflexivity.
    + rewrite wait_after_code.
      destruct (ensureConnected_loop its (wait_after nb ra)
                  (set_lastInternalErr (Some err) c1)) as [[r2 c2] t2].
      simpl. reflexivity.
  - simpl. rewrite ?app_nil_r. reflexivity.
Qed.

Lemma ensureConnected_loop_ctx_done nb err its interval c :
  ensureConnected_loop (mkIteration nb (CtxDone err) :: its) interval c
  = (Returned (Some err), c,
     [NewTimer interval; Debugf "Client is stopped, will not try anymore." []; TimerStop]).
Proof. reflexivity. Qed.

Lemma onConnectCalls_app t1 t2 :
  onConnectCalls (t1 ++ t2) = (onConnectCalls t1 + onConnectCalls t2)%nat.
Proof. unfold onConnectCalls. rewrite omap_app, length_app. reflexivity. Qed.

Lemma tryConnectOnce_last_OnConnect a c :
  snd (result_of (tryConnectOnce a c)) = None ->
  last (trace_of (tryConnectOnce a c)) = Some OnConnect.
Proof. destruct a as [[k|err [r|]] s1 s2]; crunch; try discriminate; reflexivity. Qed.

Lemma ensureConnected_loop_returns_nil its : forall interval c,
  result_of (ensureConnected_loop its interval c) = Returned None ->
  exists k nb s1 s2,
    In (mkIteration nb (TimerFired (mkAttempt (DialOk k) s1 s2))) its /\
    conn (state_of (ensureConnected_loop its interval c)) = Some k /\
    last (trace_of (ensureConnected_loop its interval c)) = Some OnConnect /\
    onConnectCalls (trace_of (ensureConnected_loop its interval c)) = 1%nat.
Proof.
  induction its as [|[nb [a|cerr]] its IH]; intros interval c Hres;
    [discriminate| |discriminate].
  rewrite ensureConnected_loop_attempt in *.
  pose proof (tryConnectOnce_result a c) as [Hiff Hshape].
  pose proof (tryConnectOnce_last_OnConnect a c) as Hlast1.
  destruct (snd (result_of (tryConnectOnce a c))) as [err|] eqn:Eerr.
  - cbv zeta in *. destruct (errors_Is_Canceled err); [discriminate|].
    cbn [result_of state_of trace_of fst snd] in Hres |- *.
    destruct (IH _ _ Hres) as (k & nb' & s1 & s2 & Hin & Hconn & Hlast & Hcnt).
    exists k, nb', s1, s2. split; [right; exact Hin|]. split; [exact Hconn|].
    destruct (dial a) as [k'|derr resp] eqn:Ed.
    { discriminate (proj2 Hiff (ex_intro _ k' eq_refl)). }
    destruct Hshape as (_ & H0 & _).
    split.
    + rewrite last_cons, last_app, last_cons, Hlast. reflexivity.
    + change (NewTimer interval :: ?x) with ([NewTimer interval] ++ x).
      rewrite !onConnectCalls_app, H0.
      change (Errorf ?f ?x :: ?y) with ([Errorf f x] ++ y).
      rewrite onConnectCalls_app, Hcnt. reflexivity.
  - destruct (proj1 Hiff eq_refl) as [k Hk]. rewrite Hk in Hshape.
    destruct Hshape as (Hconn & Hcnt & _).
    destruct a as [d s1 s2]. simpl in Hk. subst d.
    exists k, nb, s1, s2. split; [left; reflexivity|].
    cbn [result_of state_of trace_of fst snd]. split; [exact Hconn|]. split.
    + rewrite last_cons, (Hlast1 eq_refl). reflexivity.
    + change (NewTimer interval :: ?x) with ([NewTimer interval] ++ x).
      rewrite onConnectCalls_app, Hcnt. reflexivity.
Qed.

Lemma ensureConnected_loop_returns_error its : forall interval c err,
  result_of (ensureConnected_loop its interval c) = Returned (Some err) ->
  (errors_Is_Canceled err = true \/ exists nb, In (mkIteration nb (CtxDone err)) its) /\
  onConnectCalls (trace_of (ensureConnected_loop its interval c)) = 0%nat /\
  conn (state_of (ensureConnected_loop its interval c)) = conn c.
Proof.
  induction its as [|[nb [a|cerr]] its IH]; intros interval c err Hres; [discriminate| |].
  - rewrite ensureConnected_loop_attempt in *.
    pose proof (tryConnectOnce_result a c) as [Hiff Hshape].
    destruct (snd (result_of (tryConnectOnce a c))) as [e|] eqn:Eerr; [|discriminate].
    destruct (dial a) as [k'|derr resp] eqn:Ed.
    { discriminate (proj2 Hiff (ex_intro _ k' eq_refl)). }
    destruct Hshape as (Hconn & H0 & _).
    cbv zeta in *. destruct (errors_Is_Canceled e) eqn:Ecan.
    + injection Hres as <-. cbn [result_of state_of trace_of fst snd].
      split; [left; exact Ecan|]. split; [|exact Hconn].
      change (NewTimer interval :: ?x) with ([NewTimer interval] ++ x).
      rewrite !onConnectCalls_app, H0. reflexivity.
    + cbn [result_of state_of trace_of fst snd] in Hres |- *.
      destruct (IH _ _ _ Hres) as (Hwhy & Hcnt & Hc).
      split; [destruct Hwhy as [?|[nb' ?]]; [left|right; exists nb'; right]; assumption|].
      split.
      * change (NewTimer interval :: ?x) with ([NewTimer interval] ++ x).
        rewrite !onConnectCalls_app, H0.
        change (Errorf ?f ?x :: ?y) with ([Errorf f x] ++ y).
        rewrite onConnectCalls_app, Hcnt. reflexivity.
      * rewrite Hc. exact Hconn.
  - rewrite ensureConnected_loop_ctx_done in *. injection Hres as <-.
    split; [right; exists nb; left; reflexivity|]. split; reflexivity.
Qed.

(** X11. When [ensureConnected] returns nil, one of the dials of the run
    succeeded and the client holds its connection; [OnConnect] was called
    exactly once in the run, as its last event. *)
Theorem ensureConnected_returns_nil_connected its c :
  result_of (ensureConnected its c) = Returned None ->
  exists k nb s1 s2,
    In (mkIteration nb (TimerFired (mkAttempt (DialOk k) s1 s2))) its /\
    conn (state_of (ensureConnected its c)) = Some k /\
    last (trace_of (ensureConnected its c)) = Some OnConnect /\
    onConnectCalls (trace_of (ensureConnected its c)) = 1%nat.
Proof. apply ensureConnected_loop_returns_nil. Qed.

(** X12. When [ensureConnected] returns an error, either the error is a
    [context.Canceled] (possibly wrapped) returned by an attempt, or it is
    the [ctx.Err()] of an iteration in which the context was done before
    the timer fired; no [OnConnect] was called in the run and the stored
    connection is the one from before. *)
Theorem ensureConnected_error_only_on_cancellation its c err :
  result_of (ensureConnected its c) = Returned (Some err) ->
  (errors_Is_Canceled err = true \/ exists nb, In (mkIteration nb (CtxDone err)) its) /\
  onConnectCalls (trace_of (ensureConnected its c)) = 0%nat /\
  conn (state_of (ensureConnected its c)) = conn c.
Proof. apply ensureConnected_loop_returns_error. Qed.

(** ** One connection at a time *)

Lemma trackConn_app t1 : forall open t2,
  trackConn open (t1 ++ t2)
  = match trackConn open t1 with
    | Some o => trackConn o t2
    | None => None
    end.
Proof.
  induction t1 as [|e t1 IH]; intros open t2; [reflexivity|].
  destruct e; cbn [app trackConn]; try apply IH; destruct open; try reflexivity; apply IH.
Qed.

Lemma tryConnectOnce_trackConn a c :
  trackConn false (trace_of (tryConnectOnce a c))
  = Some (match snd (result_of (tryConnectOnce a c)) with None => true | Some _ => false end).
Proof. destruct a as [[k|err [r|]] s1 s2]; crunch; reflexivity. Qed.

Lemma ensureConnected_loop_trackConn its : forall interval c,
  trackConn false (trace_of (ensureConnected_loop its interval c))
  = Some (match result_of (ensureConnected_loop its interval c) with
          | Returned None => true
          | _ => false
          end).
Proof.
  induction its as [|[nb [a|cerr]] its IH]; intros interval c; [reflexivity| |reflexivity].
  rewrite ensureConnected_loop_attempt.
  pose proof (tryConnectOnce_trackConn a c) as Ht.
  destruct (snd (result_of (tryConnectOnce a c))) as [err|].
  - cbv zeta. destruct (errors_Is_Canceled err);
      cbn [result_of state_of trace_of fst snd trackConn].
    + rewrite trackConn_app, Ht. reflexivity.
    + rewrite trackConn_app, Ht. cbn [trackConn]. apply IH.
  - cbn [result_of state_of trace_of fst snd trackConn]. exact Ht.
Qed.

(** ** Starting senders and receivers *)

Lemma startSenders_ok env k l c :
  Forall (fun p => senderStartErr env (fst p) = None) l ->
  startSenders env k l c = (true, c, map (fun p => SenderStart (fst p) k) l).
Proof.
  induction 1 as [|[id s] l Hid _ IH]; [reflexivity|].
  cbn [startSenders map fst] in *. rewrite Hid.
  unfold bind at 1. cbn [emit]. rewrite IH. reflexivity.
Qed.

Lemma startSenders_fails env k pre id s post err c :
  Forall (fun p => senderStartErr env (fst p) = None) pre ->
  senderStartErr env id = Some err ->
  startSenders env k (pre ++ (id, s) :: post) c
  = (false, c,
     map (fun p => SenderStart (fst p) k) pre
     ++ [SenderStart id k;
         Errorf "Failed to send first status report: %v" [ArgErr err]]).
Proof.
  intros Hpre Hid. induction Hpre as [|[id' s'] l Hid' _ IH].
  - cbn [app startSenders map]. rewrite Hid. reflexivity.
  - cbn [app startSenders map fst] in *. rewrite Hid'.
    unfold bind at 1. cbn [emit]. rewrite IH. reflexivity.
Qed.

Lemma runOneCycle_state env c :
  state_of (runOneCycle env c) = state_of (ensureConnected (connectIts env) c).
Proof.
  unfold runOneCycle. rewrite state_bind.
  destruct (result_of (ensureConnected (connectIts env) c)) as [|[err|]]; try reflexivity.
  set (c1 := state_of (ensureConnected (connectIts env) c)).
  rewrite state_bind.
  change (result_of (get c1)) with c1. change (state_of (get c1)) with c1.
  destruct (stoppingAfterConnect env); [reflexivity|].
  rewrite state_bind.
  destruct (prepareFirstMessage env); [reflexivity|].
  rewrite state_bind.
  change (state_of (emit PrepareFirstMessageCall c1)) with c1.
  assert (Hs : forall l c, state_of (startSenders env (conn c1) l c) = c).
  { induction l as [|[id s] l IH]; intros c'; [reflexivity|].
    cbn [startSenders]. rewrite state_bind.
    destruct (senderStartErr env id); [reflexivity|]. apply IH. }
  assert (Hr : forall l c, state_of (startReceivers (conn c1) l c) = c).
  { induction l as [|[id s] l IH]; intros c'; [reflexivity|].
    cbn [startReceivers]. rewrite !state_bind. apply IH. }
  rewrite Hs.
  destruct (result_of (startSenders env (conn c1) (rangeSenders c1) c1)); cbn [negb].
  - rewrite state_bind, Hr. reflexivity.
  - reflexivity.
Qed.

Lemma startSenders_trackConn env k l : forall c o,
  trackConn o (trace_of (startSenders env k l c)) = Some o.
Proof.
  induction l as [|[id s] l IH]; intros c o; [reflexivity|].
  cbn [startSenders]. rewrite trace_bind. cbn [emit trace_of state_of result_of fst snd].
  cbn [app trackConn]. destruct (senderStartErr env id); [reflexivity|]. apply IH.
Qed.

Lemma startReceivers_trackConn k l : forall c o,
  trackConn o (trace_of (startReceivers k l c)) = Some o.
Proof.
  induction l as [|[id s] l IH]; intros c o; [reflexivity|].
  cbn [startReceivers]. rewrite !trace_bind.
  cbn [emit trace_of state_of result_of fst snd app trackConn]. apply IH.
Qed.

Lemma startSenders_connCloses env k l : forall c,
  connCloses (trace_of (startSenders env k l c)) = [].
Proof.
  induction l as [|[id s] l IH]; intros c; [reflexivity|].
  cbn [startSenders]. rewrite trace_bind. cbn [emit trace_of state_of result_of fst snd].
  unfold connCloses in *. rewrite omap_app. cbn [omap].
  destruct (senderStartErr env id); [reflexivity|]. apply IH.
Qed.

Lemma startReceivers_connCloses k l : forall c,
  connCloses (trace_of (startReceivers k l c)) = [].
Proof.
  induction l as [|[id s] l IH]; intros c; [reflexivity|].
  cbn [startReceivers]. rewrite !trace_bind.
  cbn [emit trace_of state_of result_of fst snd].
  unfold connCloses in *. rewrite !omap_app. cbn [omap]. apply IH.
Qed.

Lemma tryConnectOnce_connCloses a c : connCloses (trace_of (tryConnectOnce a c)) = [].
Proof. destruct a as [[k|err [r|]] s1 s2]; crunch; reflexivity. Qed.

Lemma ensureConnected_loop_connCloses its : forall interval c,
  connCloses (trace_of (ensureConnected_loop its interval c)) = [].
Proof.
  induction its as [|[nb [a|cerr]] its IH]; intros interval c; [reflexivity| |reflexivity].
  rewrite ensureConnected_loop_attempt.
  pose proof (tryConnectOnce_connCloses a c) as Ht. unfold connCloses in *.
  destruct (snd (result_of (tryConnectOnce a c))) as [err|].
  - cbv zeta. destruct (errors_Is_Canceled err);
      cbn [result_of state_of trace_of fst snd omap].
    + change (NewTimer interval :: ?x) with ([NewTimer interval] ++ x).
      rewrite !omap_app, Ht. reflexivity.
    + change (NewTimer interval :: ?x) with ([NewTimer interval] ++ x).
      rewrite !omap_app, Ht.
      change (Errorf ?f ?x :: ?y) with ([Errorf f x] ++ y).
      rewrite omap_app, IH. reflexivity.
  - cbn [result_of state_of trace_of fst snd].
    change (NewTimer interval :: ?x) with ([NewTimer interval] ++ x).
    rewrite omap_app, Ht. reflexivity.
Qed.

(** X16. Along the events of [runOneCycle] a connection is opened only
    when none is open and closed only when one is open, and none is open
    at the end. The cycle closes exactly one connection, the one stored by
    the successful attempt, when [ensureConnected] returned nil, and none
    otherwise. *)
Theorem runOneCycle_closes_what_it_opened env c :
  trackConn false (trace_of (runOneCycle env c)) = Some false /\
  connCloses (trace_of (runOneCycle env c))
  = match result_of (ensureConnected (connectIts env) c) with
    | Returned None => [conn (state_of (ensureConnected (connectIts env) c))]
    | _ => []
    end.
Proof.
  pose proof (ensureConnected_loop_trackConn (connectIts env) 0 c) as Het.
  pose proof (ensureConnected_loop_connCloses (connectIts env) 0 c) as Hec.
  fold (ensureConnected (connectIts env)) in Het, Hec.
  unfold connCloses in *.
  unfold runOneCycle. rewrite trace_bind, trackConn_app, omap_app, Het, Hec.
  destruct (result_of (ensureConnected (connectIts env) c)) as [|[err|]];
    [split; reflexivity|split; reflexivity|].
  set (c1 := state_of (ensureConnected (connectIts env) c)).
  rewrite trace_bind.
  change (result_of (get c1)) with c1. change (state_of (get c1)) with c1.
  change (trace_of (get c1)) with (@nil event). rewrite app_nil_l.
  destruct (stoppingAfterConnect env); [split; reflexivity|].
  rewrite trace_bind.
  destruct (prepareFirstMessage env); [split; reflexivity|].
  rewrite trace_bind.
  change (state_of (emit PrepareFirstMessageCall c1)) with c1.
  change (trace_of (emit PrepareFirstMessageCall c1)) with [PrepareFirstMessageCall].
  pose proof (startSenders_trackConn env (conn c1) (rangeSenders c1) c1) as Hst.
  pose proof (startSenders_connCloses env (conn c1) (rangeSenders c1) c1) as Hsc.
  unfold connCloses in Hsc.
  rewrite trackConn_app, !omap_app, Hsc.
  change (trackConn true [PrepareFirstMessageCall]) with (Some true).
  cbv iota. rewrite trackConn_app, Hst.
  destruct (result_of (startSenders env (conn c1) (rangeSenders c1) c1)); cbn [negb].
  - pose proof (startReceivers_connCloses (conn c1) (rangeSenders c1)
                  (state_of (startSenders env (conn c1) (rangeSenders c1) c1))) as Hrc.
    unfold connCloses in Hrc.
    rewrite !trace_bind, trackConn_app, startReceivers_trackConn, !omap_app, Hrc.
    split; reflexivity.
  - split; reflexivity.
Qed.

(** X20. Along the events of [runUntilStopped] the supervisor never has
    two connections open: every connection it opens is closed before the
    next one is opened, and none is open whenever the loop has returned or
    is between cycles. *)
Theorem runUntilStopped_one_connection its : forall c,
  trackConn false (trace_of (runUntilStopped its c)) = Some false.
Proof.
  induction its as [|[stopping env] its IH]; intros c; [reflexivity|].
  cbn [runUntilStopped stoppingAtLoopHead cycle].
  destruct stopping; [reflexivity|].
  rewrite trace_bind, trackConn_app.
  rewrite (proj1 (runOneCycle_closes_what_it_opened env c)).
  destruct (result_of (runOneCycle env c)); [apply IH|reflexivity].
Qed.

(** X21. [runUntilStopped] returns only at an iteration that reads
    [IsStopping()] as true at the head of the loop; every earlier
    iteration read it as false, and what the environment holds for later
    iterations has no effect. *)
Theorem runUntilStopped_returns_only_when_stopping its : forall c,
  result_of (runUntilStopped its c) = true ->
  exists pre it rest,
    its = pre ++ it :: rest /\
    Forall (fun i => stoppingAtLoopHead i = false) pre /\
    stoppingAtLoopHead it = true /\
    runUntilStopped its c = runUntilStopped (pre ++ [it]) c.
Proof.
  induction its as [|[stopping env] its IH]; intros c Hres; [discriminate|].
  destruct stopping eqn:Es.
  - exists [], (mkSupervisorIteration true env), its. repeat split. constructor.
  - cbn [runUntilStopped stoppingAtLoopHead cycle] in Hres.
    rewrite result_bind in Hres.
    destruct (result_of (runOneCycle env c)) eqn:Ec; [|discriminate].
    destruct (IH _ Hres) as (pre & it & rest & -> & Hpre & Hit & Heq).
    exists (mkSupervisorIteration false env :: pre), it, rest.
    split; [reflexivity|]. split; [constructor; [reflexivity|exact Hpre]|].
    split; [exact Hit|].
    cbn [app runUntilStopped stoppingAtLoopHead cycle].
    unfold bind. destruct (runOneCycle env c) as [[b c1] t1].
    cbn [result_of fst] in Ec. subst b.
    cbn [state_of fst snd] in Heq. rewrite Heq. reflexivity.
Qed.

Lemma rangeSenders_ensureConnected its c :
  rangeSenders (state_of (ensureConnected its c)) = rangeSenders c.
Proof. unfold rangeSenders, ensureConnected. rewrite ensureConnected_loop_senders. reflexivity. Qed.

Lemma runOneCycle_prepared_trace env c :
  result_of (ensureConnected (connectIts env) c) = Returned None ->
  stoppingAfterConnect env = false ->
  prepareFirstMessage env = None ->
  let c1 := state_of (ensureConnected (connectIts env) c) in
  let started := startSenders env (conn c1) (rangeSenders c) c1 in
  trace_of (runOneCycle env c)
  = trace_of (ensureConnected (connectIts env) c)
    ++ PrepareFirstMessageCall :: trace_of started
    ++ (if result_of started
        then trace_of (startReceivers (conn c1) (rangeSenders c) (state_of started))
             ++ [StopReceiver; StopSender; ConnClose (conn c1)]
        else [StopSender; ConnClose (conn c1)]).
Proof.
  intros Hok Hns Hprep. cbv zeta. unfold runOneCycle. rewrite trace_bind, Hok.
  rewrite <- (rangeSenders_ensureConnected (connectIts env) c).
  set (c1 := state_of (ensureConnected (connectIts env) c)).
  rewrite trace_bind.
  change (result_of (get c1)) with c1. change (state_of (get c1)) with c1.
  change (trace_of (get c1)) with (@nil event). rewrite app_nil_l.
  destruct (stoppingAfterConnect env); [discriminate|].
  rewrite trace_bind.
  destruct (prepareFirstMessage env); [discriminate|].
  rewrite trace_bind.
  change (state_of (emit PrepareFirstMessageCall c1)) with c1.
  change (trace_of (emit PrepareFirstMessageCall c1)) with [PrepareFirstMessageCall].
  destruct (result_of (startSenders env (conn c1) (rangeSenders c1) c1)); cbn [negb].
  - rewrite !trace_bind. reflexivity.
  - rewrite !trace_bind. reflexivity.
Qed.

(** X17. When a sender fails to start, [runOneCycle] has started the
    senders that come before it in the range and nothing else: it logs the
    error, cancels the sender context, closes the connection and returns,
    without starting a receiver, spawning a coordinator or cancelling a
    receiver context. *)
Theorem runOneCycle_sender_start_failure env c pre id s post err :
  result_of (ensureConnected (connectIts env) c) = Returned None ->
  stoppingAfterConnect env = false ->
  prepareFirstMessage env = None ->
  rangeSenders c = pre ++ (id, s) :: post ->
  Forall (fun p => senderStartErr env (fst p) = None) pre ->
  senderStartErr env id = Some err ->
  let k := conn (state_of (ensureConnected (connectIts env) c)) in
  trace_of (runOneCycle env c)
  = trace_of (ensureConnected (connectIts env) c)
    ++ PrepareFirstMessageCall :: map (fun p => SenderStart (fst p) k) pre
    ++ [SenderStart id k;
        Errorf "Failed to send first status report: %v" [ArgErr err];
        StopSender; ConnClose k].
Proof.
  intros Hok Hns Hprep Hrange Hpre Hid. cbv zeta.
  rewrite (runOneCycle_prepared_trace env c Hok Hns Hprep). cbv zeta.
  rewrite Hrange, (startSenders_fails env _ pre id s post err _ Hpre Hid).
  cbn [result_of trace_of fst snd]. rewrite <- app_assoc. reflexivity.
Qed.

Lemma map_keys {A B C} (f : A -> C) (l : list (A * B)) :
  map f (l.*1) = map (fun p => f (fst p)) l.
Proof.
  induction l as [|p l IH]; [reflexivity|].
  rewrite fmap_cons. cbn [map]. rewrite IH. reflexivity.
Qed.

Lemma flat_map_keys {A B C} (f : A -> list C) (l : list (A * B)) :
  flat_map f (l.*1) = flat_map (fun p => f (fst p)) l.
Proof.
  induction l as [|p l IH]; [reflexivity|].
  rewrite fmap_cons. cbn [flat_map]. rewrite IH. reflexivity.
Qed.

(** X18. In a cycle that connects, is not stopping, prepares its first
    message and starts every sender, with a record in the common client
    for every agent that has a sender: [runOneCycle] starts the sender of
    every agent, in some order, before any receiver; then it starts one
    receiver per agent, in some order, each immediately followed by the
    spawn of its coordinator; and then at once it cancels the receiver
    context, cancels the sender context and closes the connection, in
    this order. *)
Theorem runOneCycle_healthy_shape env c m :
  result_of (ensureConnected (connectIts env) c) = Returned None ->
  stoppingAfterConnect env = false ->
  prepareFirstMessage env = None ->
  senders c = Some m ->
  (forall id, is_Some (m !! id) ->
              senderStartErr env id = None /\ hasAgent (common c) id) ->
  let k := conn (state_of (ensureConnected (connectIts env) c)) in
  exists senderOrder receiverOrder,
    senderOrder ≡ₚ (map_to_list m).*1 /\
    receiverOrder ≡ₚ (map_to_list m).*1 /\
    trace_of (runOneCycle env c)
    = trace_of (ensureConnected (connectIts env) c)
      ++ PrepareFirstMessageCall :: map (fun id => SenderStart id k) senderOrder
      ++ flat_map (fun id => [ReceiverStart id k; GoCoordinator id]) receiverOrder
      ++ [StopReceiver; StopSender; ConnClose k].
Proof.
  intros Hok Hns Hprep Hm Hall. cbv zeta.
  assert (Hrange : rangeSenders c = map_to_list m).
  { unfold rangeSenders. rewrite Hm. reflexivity. }
  assert (Hstart : Forall (fun p => senderStartErr env (fst p) = None) (rangeSenders c)).
  { rewrite Hrange. apply Forall_forall. intros [id s] Hin.
    apply elem_of_map_to_list in Hin.
    apply (Hall id). rewrite Hin. eauto. }
  exists (map_to_list m).*1, (map_to_list m).*1.
  split; [reflexivity|]. split; [reflexivity|].
  rewrite (runOneCycle_prepared_trace env c Hok Hns Hprep). cbv zeta.
  rewrite (startSenders_ok env _ _ _ Hstart).
  cbn [result_of state_of trace_of fst snd]. rewrite startReceivers_trace.
  rewrite Hrange, map_keys, flat_map_keys. reflexivity.
Qed.

(** X19. With a nil or empty [senders] map, a cycle that connects still
    prepares the first message, then starts no task and closes the
    connection at once. *)
Theorem runOneCycle_without_senders env c :
  result_of (ensureConnected (connectIts env) c) = Returned None ->
  stoppingAfterConnect env = false ->
  prepareFirstMessage env = None ->
  senders c = None \/ senders c = Some ∅ ->
  trace_of (runOneCycle env c)
  = trace_of (ensureConnected (connectIts env) c)
    ++ [PrepareFirstMessageCall; StopReceiver; StopSender;
        ConnClose (conn (state_of (ensureConnected (connectIts env) c)))].
Proof.
  intros Hok Hns Hprep Hnone.
  assert (Hrange : rangeSenders c = []).
  { unfold rangeSenders. destruct Hnone as [-> | ->]; [reflexivity|apply map_to_list_empty]. }
  rewrite (runOneCycle_prepared_trace env c Hok Hns Hprep). cbv zeta.
  rewrite Hrange. reflexivity.
Qed.

(** X13. A [CheckRedirect] callback that rejects a redirect with
    [context.Canceled] (possibly wrapped) ends [ensureConnected]: it returns
    the [url.Error] wrapping the rejection after that single dial, stores
    it in [lastInternalErr], and makes no further attempt, whatever the
    environment would have answered; the URL is unchanged. *)
Theorem canceled_CheckRedirect_stops_connecting nb a rest c err resp redirect check rej :
  dial a = DialFail err (Some resp) ->
  is3xx (StatusCode resp) = true ->
  Location resp = inl redirect ->
  CheckRedirect (CCallbacks (common c)) = Some check ->
  check (set_ReqURL redirect (RespRequest resp))
        (viaReq (responseChain c ++ [resp])) (responseChain c ++ [resp]) = Some rej ->
  errors_Is_Canceled rej = true ->
  let r := ensureConnected (mkIteration nb (TimerFired a) :: rest) c in
  result_of r = Returned (Some (UrlError "Get" (URL_String redirect) rej)) /\
  dialled (trace_of r) = [URL_String (url c)] /\
  lastInternalErr (state_of r) = Some (UrlError "Get" (URL_String redirect) rej) /\
  url (state_of r) = url c.
Proof.
  intros Hd H3 Hloc Hcb Hrej Hcan. cbv zeta. unfold ensureConnected.
  rewrite ensureConnected_loop_attempt.
  pose proof (rejected_redirect_keeps_url a c err resp redirect check rej
                Hd H3 Hloc Hcb Hrej) as (Hres & Hurl & _ & _ & _).
  pose proof (tryConnectOnce_dials a c) as Hdial.
  rewrite Hres. cbn [fst snd errors_Is_Canceled]. rewrite Hcan.
  cbn [result_of state_of trace_of fst snd].
  repeat split.
  - unfold dialled in *. cbn [omap]. change (NewTimer 0 :: ?x) with ([NewTimer 0] ++ x).
    rewrite !omap_app, Hdial. reflexivity.
  - exact Hurl.
Qed.


Lemma tryConnectOnce_all3xx a c :
  all3xx (responseChain c) -> all3xx (responseChain (state_of (tryConnectOnce a c))).
Proof.
  intros Hc. destruct (tryConnectOnce_responseChain_cases a c)
    as [-> | [-> | (err & r & _ & H3 & ->)]].
  - exact Hc.
  - constructor.
  - apply Forall_app. split; [exact Hc|]. constructor; [exact H3|constructor].
Qed.

Lemma ensureConnected_loop_all3xx its : forall interval c,
  all3xx (responseChain c) ->
  all3xx (responseChain (state_of (ensureConnected_loop its interval c))).
Proof.
  induction its as [|[nb [a|cerr]] its IH]; intros interval c Hc; [exact Hc| |exact Hc].
  rewrite ensureConnected_loop_attempt.
  pose proof (tryConnectOnce_all3xx a c Hc) as H1.
  destruct (snd (result_of (tryConnectOnce a c))) as [err|]; [|exact H1].
  cbv zeta. destruct (errors_Is_Canceled err); cbn [state_of fst snd]; [exact H1|].
  apply IH. exact H1.
Qed.

Lemma tryConnectOnce_frame a c :
  let c' := state_of (tryConnectOnce a c) in
  senders c' = senders c /\ common c' = common c /\
  connShutdownTimeout c' = connShutdownTimeout c /\
  lastInternalErr c' = lastInternalErr c.
Proof. destruct a as [[k|err [r|]] s1 s2]; crunch; repeat split. Qed.

Lemma ensureConnected_loop_frame its : forall interval c,
  let c' := state_of (ensureConnected_loop its interval c) in
  senders c' = senders c /\ common c' = common c /\
  connShutdownTimeout c' = connShutdownTimeout c.
Proof.
  induction its as [|[nb [a|cerr]] its IH]; intros interval c;
    [repeat split| |repeat split].
  rewrite ensureConnected_loop_attempt.
  pose proof (tryConnectOnce_frame a c) as (H1 & H2 & H3 & _).
  destruct (snd (result_of (tryConnectOnce a c))) as [err|]; [|repeat split; assumption].
  cbv zeta. destruct (errors_Is_Canceled err); cbn [state_of fst snd].
  - repeat split; assumption.
  - destruct (IH (wait_after nb (fst (result_of (tryConnectOnce a c))))
                 (set_lastInternalErr (Some err) (state_of (tryConnectOnce a c))))
      as (I1 & I2 & I3).
    cbv zeta in *. rewrite I1, I2, I3. repeat split; assumption.
Qed.

Lemma runOneCycle_frame env c :
  let c' := state_of (runOneCycle env c) in
  senders c' = senders c /\ common c' = common c /\
  connShutdownTimeout c' = connShutdownTimeout c.
Proof.
  cbv zeta. rewrite runOneCycle_state. apply ensureConnected_loop_frame.
Qed.

Lemma runUntilStopped_state_inv (P : wsClient -> Prop) :
  (forall env c, P c -> P (state_of (runOneCycle env c))) ->
  forall its c, P c -> P (state_of (runUntilStopped its c)).
Proof.
  intros Hstep. induction its as [|[stopping env] its IH]; intros c Hc; [exact Hc|].
  cbn [runUntilStopped stoppingAtLoopHead cycle].
  destruct stopping; [exact Hc|].
  rewrite state_bind.
  destruct (result_of (runOneCycle env c)); [apply IH|]; apply Hstep, Hc.
Qed.

(** X15. [runUntilStopped], through all its cycles and connection
    attempts, never assigns to the [senders] field or to
    [connShutdownTimeout]: every cycle ranges over the map that
    [PrepareStart] filled, and every coordinator uses the timeout that
    [NewWebSocket] set. *)
Theorem supervisor_keeps_senders_and_timeout its c :
  let c' := state_of (runUntilStopped its c) in
  senders c' = senders c /\
  connShutdownTimeout c' = connShutdownTimeout c.
Proof.
  cbv zeta.
  apply (runUntilStopped_state_inv
           (fun c' => senders c' = senders c /\
                      connShutdownTimeout c' = connShutdownTimeout c)).
  - intros env c0 (H1 & H3).
    destruct (runOneCycle_frame env c0) as (F1 & _ & F3). cbv zeta in *.
    rewrite F1, F3. split; assumption.
  - split; reflexivity.
Qed.

(** X14. The response chain only ever holds 3xx responses: if it does
    before [runUntilStopped] runs (it is empty in a new client), it does
    after any number of cycles. *)
Theorem responseChain_holds_only_3xx its c :
  all3xx (responseChain c) ->
  all3xx (responseChain (state_of (runUntilStopped its c))).
Proof.
  apply (runUntilStopped_state_inv (fun c' => all3xx (responseChain c'))).
  intros env c0 Hc. rewrite runOneCycle_state. apply ensureConnected_loop_all3xx, Hc.
Qed.

(** ** Receiver *)

Section ReceiverExtras.
Context `{Protobufs}.

Lemma stoppedCloses_app t1 t2 :
  stoppedCloses (t1 ++ t2) = (stoppedCloses t1 + stoppedCloses t2)%nat.
Proof. unfold stoppedCloses. rewrite omap_app, length_app. reflexivity. Qed.

(** X22. Provided the processor does not close it, the receiver loop
    closes its stopped channel exactly once if it returns, as its last
    event, and not at all while it is running. *)
Theorem ReceiverLoop_closes_stopped_once r steps :
  (forall msg, stoppedCloses (processor r msg) = 0%nat) ->
  stoppedCloses (fst (ReceiverLoop r steps))
  = (if snd (ReceiverLoop r steps) then 1%nat else 0%nat) /\
  (snd (ReceiverLoop r steps) = true ->
   last (fst (ReceiverLoop r steps)) = Some CloseReceiverStopped).
Proof.
  intros Hproc. induction steps as [|[| |read] steps IH];
    try (split; [reflexivity|]; intros; try discriminate; reflexivity).
  cbn [ReceiverLoop].
  destruct (receiveMessage read) as [msg|err].
  - destruct (ReceiverLoop r steps) as [t returned]. cbn [fst snd] in *.
    destruct IH as [IH1 IH2]. split.
    + rewrite stoppedCloses_app, Hproc. exact IH1.
    + intros Hret. rewrite last_app, (IH2 Hret). reflexivity.
  - cbn [fst snd]. split.
    + destruct (IsCloseError err [CloseNormalClosure]); reflexivity.
    + intros _. apply last_snoc.
Qed.

(** X23. A receiver loop whose first read completes returns at once
    without logging and without processing a message exactly when the read
    itself failed with a close error of code 1000; in particular a
    decoding failure is never silent, since it is wrapped before the
    test. *)
Theorem ReceiverLoop_silent_exit_iff_normal_close r read :
  ReceiverLoop r [ReadCompleted read] = ([CloseReceiverStopped], true)
  <-> exists text, read = inr (CloseError CloseNormalClosure text).
Proof.
  split.
  - cbn [ReceiverLoop]. unfold receiveMessage.
    destruct read as [bytes|err].
    + destruct (DecodeWSMessage bytes) as [msg|derr].
      * intros Heq. apply (f_equal snd) in Heq. simpl in Heq. discriminate.
      * simpl. discriminate.
    + destruct err as [ | | |code text| ]; cbn [IsCloseError negb app]; try discriminate.
      cbn [existsb]. rewrite orb_false_r.
      destruct (Z.eqb_spec code CloseNormalClosure) as [->|Hne];
        cbn [negb app]; [eauto|discriminate].
  - intros [text ->]. reflexivity.
Qed.
End ReceiverExtras.

(** ** Coordinator *)

(** X24. The coordinator goroutine never ends exactly in three cases:
    neither the sender nor the receiver ever stops; or the receiver
    neither stops by itself nor reacts to the cancellation of its context,
    so that the wait after [stopReceiver()] blocks for ever; or the same
    for the sender and the wait after [stopSender()]. In every other case
    it ends. *)
Theorem coordinator_blocks_for_ever_iff c env t0 :
  snd (coordinator c env t0) = None
  <-> (senderStoppedAt env = None /\ receiverStoppedAt env = None) \/
      (receiverStoppedAt env = None /\ receiverStopDelay env = None) \/
      (senderStoppedAt env = None /\ senderStopDelay env = None).
Proof.
  unfold coordinator, select2, receiverStoppedAfterCancel, senderStoppedAfterCancel,
    await, earliest.
  destruct (senderStoppedAt env) as [ts|], (receiverStoppedAt env) as [tr|],
    (senderStopDelay env) as [ds|], (receiverStopDelay env) as [dr|],
    (StoppingErr env), (pickOuter env), (pickInner env);
    cbn [fst snd]; case_leb; cbn [andb fst snd]; case_leb; cbn [andb fst snd];
    split; try discriminate; auto;
    intros [[? ?] | [[? ?] | [? ?]]]; discriminate.
Qed.

(** X25. A coordinator cancels at most one of the two contexts, at most
    once; none of its events happens before it starts or after it ends. *)
Theorem coordinator_cancels_at_most_once c env t0 :
  let events := fst (coordinator c env t0) in
  (length (stopReceiverInstants events) + length (stopSenderInstants events) <= 1)%nat /\
  Forall (fun te => t0 <= fst te) events /\
  (forall f, snd (coordinator c env t0) = Some f -> Forall (fun te => fst te <= f) events).
Proof.
  unfold coordinator, select2, receiverStoppedAfterCancel, senderStoppedAfterCancel,
    await, earliest.
  destruct (senderStoppedAt env) as [ts|], (receiverStoppedAt env) as [tr|],
    (senderStopDelay env) as [ds|], (receiverStopDelay env) as [dr|],
    (StoppingErr env), (pickOuter env), (pickInner env);
    cbn [fst snd]; case_leb; cbn [andb fst snd]; case_leb; cbn [andb fst snd];
    (split; [simpl; lia|]);
    (split; [repeat constructor; cbn [fst]; lia|]);
    intros f Hf; try discriminate; injection Hf as <-;
    repeat constructor; cbn [fst]; lia.
Qed.

(** X26. With a non-negative timeout and tasks that stop within the
    non-negative delays [dr] (receiver) and [ds] (sender) of the
    cancellation of their context: a coordinator that sees the sender
    stopped at [t] ends no later than [t + connShutdownTimeout + dr], and
    no later than [t + dr] when the sender stopped with an error; one that
    sees the receiver stopped at [t] ends no later than [t + ds]. *)
Theorem coordinator_lifetime_bound c env t0 t dr ds :
  0 <= connShutdownTimeout c ->
  receiverStopDelay env = Some dr -> 0 <= dr ->
  senderStopDelay env = Some ds -> 0 <= ds ->
  (select2 t0 (senderStoppedAt env) (receiverStoppedAt env) (pickOuter env) = Some (t, true) ->
   exists f, snd (coordinator c env t0) = Some f /\
             t <= f <= t + connShutdownTimeout c + dr /\
             (forall err, StoppingErr env = Some err -> f <= t + dr)) /\
  (select2 t0 (senderStoppedAt env) (receiverStoppedAt env) (pickOuter env) = Some (t, false) ->
   exists f, snd (coordinator c env t0) = Some f /\
             t <= f <= t + ds).
Proof.
  intros HT Edr Hr Eds Hs. split; intros Hsel; unfold coordinator; rewrite Hsel.
  - destruct (StoppingErr env) as [err|].
    + unfold receiverStoppedAfterCancel, await, earliest. rewrite Edr.
      destruct (receiverStoppedAt env) as [tr|]; eexists; (split; [reflexivity|]);
        split; try lia; intros; lia.
    + unfold select2, receiverStoppedAfterCancel, await, earliest. rewrite Edr.
      destruct (receiverStoppedAt env) as [tr|], (pickInner env);
        case_leb; cbn [andb fst snd]; case_leb;
        eexists; (split; [reflexivity|]); (split; [lia|]); intros; discriminate.
  - unfold senderStoppedAfterCancel, await, earliest. rewrite Eds.
    destruct (senderStoppedAt env) as [ts|]; eexists; (split; [reflexivity|]); lia.
Qed.

(** ** PrepareStart with an initialised senders map *)

Section PrepareStartExtras.
Context `{ClientCommonOps}.

Lemma hasAgent_set_Agents cc ags id st k :
  Agents cc = Some ags ->
  hasAgent cc k ->
  hasAgent (set_Agents (Some (<[id := st]> ags)) cc) k.
Proof.
  intros Hags (ags' & Hags' & Hk). rewrite Hags in Hags'. injection Hags' as <-.
  exists (<[id := st]> ags). split; [reflexivity|].
  destruct (decide (id = k)) as [->|Hne].
  - rewrite lookup_insert_eq. eauto.
  - rewrite lookup_insert_ne by exact Hne. exact Hk.
Qed.

Lemma PrepareStart_agents_registers agents :
  (forall id d cc k, hasAgent cc k -> hasAgent (common_SetAgentDescription id d cc) k) ->
  (forall id h cc k, hasAgent cc k -> hasAgent (common_SetHealth id h cc) k) ->
  forall c m,
  senders c = Some m ->
  Forall (fun a => exists ag, a = Some ag /\ hasAgent (common c) (AgentInstanceUid ag)) agents ->
  exists c' m',
    PrepareStart_agents agents c = Normal c' /\
    senders c' = Some m' /\
    dom m' = dom m ∪ list_to_set (agentIds agents) /\
    url c' = url c /\ conn c' = conn c /\ responseChain c' = responseChain c.
Proof.
  intros Hdesc Hhealth.
  induction agents as [|a agents IH]; intros c m Hm Hall.
  - exists c, m. repeat split; try assumption. cbn. rewrite union_empty_r_L. reflexivity.
  - inversion Hall as [|? ? (ag & -> & (ags & Hags & [st Hst])) Hrest]; subst.
    cbn [PrepareStart_agents]. rewrite Hm. cbn [set_senders common Agents].
    rewrite Hags, Hst.
    set (id := AgentInstanceUid ag).
    set (sender := NewSender (CLogger (common c))).
    set (cc := common_SetHealth id false
                 (common_SetAgentDescription id (AgentDescription ag)
                    (set_Agents (Some (<[id := set_AgentSender sender st]> ags)) (common c)))).
    set (c1 := set_common cc _).
    destruct (IH c1 (<[id := sender]> m)) as (c' & m' & Hrun & Hs & Hdom & Hu & Hk & Hr).
    + reflexivity.
    + eapply Forall_impl; [exact Hrest|].
      intros a' (ag' & -> & Hag'). exists ag'. split; [reflexivity|].
      subst c1 cc. cbn [common set_common].
      apply Hhealth, Hdesc, (hasAgent_set_Agents _ ags); assumption.
    + exists c', m'. split; [exact Hrun|]. split; [exact Hs|].
      split; [|split; [exact Hu|split; [exact Hk|exact Hr]]].
      change (agentIds (Some ag :: agents)) with (id :: agentIds agents).
      rewrite Hdom, dom_insert_L, list_to_set_cons.
      rewrite (comm_L (∪) {[id]} (dom m)), <- (assoc_L (∪)). reflexivity.
Qed.

(** X3. On a client whose [senders] map is not nil, when every entry of
    the agent list is non-nil and has a record in the common client, and
    the common client's two setters keep the records, [PrepareStart]
    returns normally; the keys of [senders] are then the former keys plus
    the instance ids of the agents, and URL, connection and response
    chain are unchanged. *)
Theorem PrepareStart_registers_senders settings c m :
  (forall id d cc k, hasAgent cc k -> hasAgent (common_SetAgentDescription id d cc) k) ->
  (forall id h cc k, hasAgent cc k -> hasAgent (common_SetHealth id h cc) k) ->
  senders c = Some m ->
  Forall (fun a => exists ag, a = Some ag /\ hasAgent (common c) (AgentInstanceUid ag))
         (SAgents settings) ->
  exists c' err m',
    PrepareStart settings c = Normal (c', err) /\
    senders c' = Some m' /\
    dom m' = dom m ∪ list_to_set (agentIds (SAgents settings)) /\
    url c' = url c /\ conn c' = conn c /\ responseChain c' = responseChain c.
Proof.
  intros Hdesc Hhealth Hm Hall.
  destruct (PrepareStart_agents_registers (SAgents settings) Hdesc Hhealth c m Hm Hall)
    as (c1 & m' & Hrun & Hs & Hdom & Hu & Hk & Hr).
  unfold PrepareStart. rewrite Hrun.
  destruct (common_PrepareStart settings (common c1)) as [cc err].
  exists (set_common cc c1), err, m'. repeat split; assumption.
Qed.
End PrepareStartExtras.

(** ** Start *)


(** X2. The [wss] scheme that [Start] forces for a TLS configuration is
    not kept across redirects: the first dial goes to the [wss] URL, and
    after a followed redirect whose Location has scheme [http] the next
    dial goes to the redirect target with scheme [ws], while the dialer
    still holds the TLS configuration. *)
Theorem tls_scheme_not_kept_across_redirect parse settings cs c tls u err resp redirect :
  parse (OpAMPServerURL settings) = inl u ->
  SettingsTLSConfig cs = Some tls ->
  is3xx (StatusCode resp) = true ->
  Location resp = inl redirect ->
  Scheme redirect = "http" ->
  redirectAccepted (fst (fst (Start parse settings cs c))) resp redirect ->
  let c1 := fst (fst (Start parse settings cs c)) in
  let r := tryConnectOnce (failWith err (Some resp)) c1 in
  TLSClientConfig (dialer (snd (fst (Start parse settings cs c)))) = Some tls /\
  dialled (trace_of r) = [URL_String (set_Scheme "wss" u)] /\
  forall a', dialled (trace_of (tryConnectOnce a' (state_of r)))
             = [URL_String (set_Scheme "ws" redirect)].
Proof.
  intros Hp Htls H3 Hloc Hhttp Hacc. cbv zeta.
  assert (Hstart : Start parse settings cs c
                   = (set_url (set_Scheme "wss" u) c,
                      {| dialer := {| EnableCompression := SettingsEnableCompression cs;
                                      TLSClientConfig := Some tls |};
                         getHeader := Some ((match SettingsHeaderFunc cs with
                                             | Some f => f | None => fun h => h end)
                                              (match SettingsHeader cs with
                                               | Some h => h | None => ∅ end));
                         connectLoopStarted := true |}, None)).
  { unfold Start. rewrite Hp, Htls. reflexivity. }
  rewrite Hstart in *. cbn [fst snd dialer TLSClientConfig] in *.
  split; [reflexivity|]. split; [apply tryConnectOnce_dials|].
  intros a'. rewrite tryConnectOnce_dials. f_equal. f_equal.
  destruct (tryConnectOnce_url_changes_only_on_followed_redirect
              (failWith err (Some resp)) (set_url (set_Scheme "wss" u) c))
    as [Hsame | (err' & resp' & redirect' & Hd & _ & Hloc' & _ & Hurl)].
  - exfalso. revert Hsame. unfold redirectAccepted in Hacc.
    run_m. simpl. rewrite H3, Hloc. simpl in *.
    destruct (CheckRedirect (CCallbacks (common c))) as [check|]; simpl.
    + unfold Request_Clone in *. rewrite Hacc. simpl.
      rewrite (rewriteScheme_http redirect Hhttp). intros Heq.
      apply (f_equal Scheme) in Heq. discriminate.
    + rewrite (rewriteScheme_http redirect Hhttp). intros Heq.
      apply (f_equal Scheme) in Heq. discriminate.
  - cbn [failWith dial] in Hd. injection Hd as <- <-.
    rewrite Hloc in Hloc'. injection Hloc' as <-.
    rewrite Hurl. apply rewriteScheme_http, Hhttp.
Qed.

(** ** Instances at concrete inputs *)

Lemma CheckRedirect_call_arguments_witness :
  checkRedirectCalls
    (trace_of (tryConnectOnce (failWith errBadHandshake (Some resp307)) startedClient))
  = [(set_ReqURL urlHost2 (getRequest urlHost1), [getRequest urlHost1], [resp307])].
Proof.
  destruct (CheckRedirect_call_arguments
              (failWith errBadHandshake (Some resp307)) startedClient
              (set_ReqURL urlHost2 (getRequest urlHost1)) [getRequest urlHost1] [resp307])
    as (_ & _ & _ & _ & _ & _ & _ & _ & _ & _ & Hcalls).
  - left. reflexivity.
  - exact Hcalls.
Defined.

Lemma rejected_redirect_keeps_url_witness :
  url (state_of (tryConnectOnce (failWith errBadHandshake (Some resp307)) refusingClient))
  = urlHost1.
Proof.
  exact (proj1 (proj2 (rejected_redirect_keeps_url
           (failWith errBadHandshake (Some resp307)) refusingClient
           errBadHandshake resp307 urlHost2
           (fun _ _ _ => Some (ErrorString "redirect refused"))
           (ErrorString "redirect refused")
           eq_refl eq_refl eq_refl eq_refl eq_refl))).
Defined.

Lemma invalid_location_keeps_url_witness :
  url (state_of (tryConnectOnce (failWith errBadHandshake (Some resp302NoLocation))
                   startedClient))
  = urlHost1.
Proof.
  exact (proj1 (proj2 (invalid_location_keeps_url
           (failWith errBadHandshake (Some resp302NoLocation)) startedClient
           errBadHandshake resp302NoLocation
           (ErrorString "http: no Location header in response")
           eq_refl eq_refl eq_refl))).
Defined.

Lemma ensureConnected_returns_nil_connected_witness :
  exists k nb s1 s2,
    In (mkIteration nb (TimerFired (mkAttempt (DialOk k) s1 s2)))
       [ redirectIteration 500000000 errBadHandshake resp307;
         successIteration 750000000 (mkConn 1) ] /\
    conn (state_of (ensureConnected
            [ redirectIteration 500000000 errBadHandshake resp307;
              successIteration 750000000 (mkConn 1) ] startedClient)) = Some k /\
    last (trace_of (ensureConnected
            [ redirectIteration 500000000 errBadHandshake resp307;
              successIteration 750000000 (mkConn 1) ] startedClient)) = Some OnConnect /\
    onConnectCalls (trace_of (ensureConnected
            [ redirectIteration 500000000 errBadHandshake resp307;
              successIteration 750000000 (mkConn 1) ] startedClient)) = 1%nat.
Proof.
  apply (ensureConnected_returns_nil_connected
           [ redirectIteration 500000000 errBadHandshake resp307;
             successIteration 750000000 (mkConn 1) ] startedClient).
  reflexivity.
Defined.

Lemma ensureConnected_error_only_on_cancellation_witness :
  onConnectCalls (trace_of (ensureConnected
     [ {| nextBackOff := 500000000;
          ready := TimerFired (failWith errBadHandshake (Some resp503)) |};
       {| nextBackOff := 750000000; ready := CtxDone ContextCanceled |} ]
     startedClient)) = 0%nat.
Proof.
  exact (proj1 (proj2 (ensureConnected_error_only_on_cancellation
           [ {| nextBackOff := 500000000;
                ready := TimerFired (failWith errBadHandshake (Some resp503)) |};
             {| nextBackOff := 750000000; ready := CtxDone ContextCanceled |} ]
           startedClient ContextCanceled eq_refl))).
Defined.

Lemma canceled_CheckRedirect_stops_connecting_witness :
  dialled (trace_of (ensureConnected
     [ redirectIteration 500000000 errBadHandshake resp307;
       successIteration 750000000 (mkConn 1) ] cancellingClient))
  = ["ws://host1/"].
Proof.
  exact (proj1 (proj2 (canceled_CheckRedirect_stops_connecting
           500000000 (failWith errBadHandshake (Some resp307))
           [successIteration 750000000 (mkConn 1)] cancellingClient
           errBadHandshake resp307 urlHost2
           (fun _ _ _ => Some ContextCanceled) ContextCanceled
           eq_refl eq_refl eq_refl eq_refl eq_refl eq_refl))).
Defined.

Lemma responseChain_holds_only_3xx_witness :
  responseChain (state_of (runUntilStopped twoRedirectedCyclesThenStop
                             (set_responseChain [resp307] startedClient)))
  = [resp307; resp307; resp308] /\
  all3xx (responseChain (state_of (runUntilStopped twoRedirectedCyclesThenStop
                                     (set_responseChain [resp307] startedClient)))).
Proof.
  split; [vm_compute; reflexivity|].
  apply (responseChain_holds_only_3xx twoRedirectedCyclesThenStop
           (set_responseChain [resp307] startedClient)).
  constructor; [reflexivity|constructor].
Defined.

Lemma runUntilStopped_returns_only_when_stopping_witness :
  exists pre it rest,
    oneCycleThenStop = pre ++ it :: rest /\
    Forall (fun i => stoppingAtLoopHead i = false) pre /\
    stoppingAtLoopHead it = true /\
    runUntilStopped oneCycleThenStop clientWithSender
    = runUntilStopped (pre ++ [it]) clientWithSender.
Proof.
  apply (runUntilStopped_returns_only_when_stopping oneCycleThenStop clientWithSender).
  vm_compute. reflexivity.
Defined.

Lemma runOneCycle_sender_start_failure_witness :
  trace_of (runOneCycle failingSenderCycle clientWithSender)
  = trace_of (ensureConnected (connectIts failingSenderCycle) clientWithSender)
    ++ [ PrepareFirstMessageCall;
         SenderStart "agent-1" (Some (mkConn 1));
         Errorf "Failed to send first status report: %v" [ArgErr (ErrorString "write failed")];
         StopSender; ConnClose (Some (mkConn 1)) ].
Proof.
  refine (runOneCycle_sender_start_failure failingSenderCycle clientWithSender
            [] "agent-1" (NewSender NopLogger) [] (ErrorString "write failed")
            eq_refl eq_refl eq_refl _ _ eq_refl).
  - vm_compute. reflexivity.
  - constructor.
Defined.

Lemma runOneCycle_healthy_shape_witness :
  exists senderOrder receiverOrder,
    senderOrder ≡ₚ ["agent-1"; "agent-2"] /\
    receiverOrder ≡ₚ ["agent-1"; "agent-2"] /\
    trace_of (runOneCycle healthyCycle clientWithTwoSenders)
    = trace_of (ensureConnected (connectIts healthyCycle) clientWithTwoSenders)
      ++ PrepareFirstMessageCall
         :: map (fun id => SenderStart id (Some (mkConn 1))) senderOrder
      ++ flat_map (fun id => [ReceiverStart id (Some (mkConn 1)); GoCoordinator id])
                  receiverOrder
      ++ [StopReceiver; StopSender; ConnClose (Some (mkConn 1))].
Proof.
  assert (Hkeys : (map_to_list (<[ "agent-2" := NewSender NopLogger ]>
                     ({[ "agent-1" := NewSender NopLogger ]} : gmap InstanceUid WSSender))).*1
                  ≡ₚ ["agent-1"; "agent-2"]).
  { vm_compute. first [reflexivity | apply perm_swap]. }
  destruct (runOneCycle_healthy_shape healthyCycle clientWithTwoSenders _
              eq_refl eq_refl eq_refl eq_refl)
    as (o1 & o2 & H1 & H2 & Ht).
  - intros id Hid. split; [reflexivity|].
    eexists. split; [reflexivity|].
    destruct (decide (id = "agent-2")) as [->|Hne2]; [vm_compute; eauto|].
    rewrite lookup_insert_ne in Hid by congruence.
    rewrite lookup_insert_ne by congruence.
    destruct (decide (id = "agent-1")) as [->|Hne1]; [vm_compute; eauto|].
    rewrite lookup_singleton_ne in Hid by congruence. destruct Hid; discriminate.
  - exists o1, o2. split; [exact (Permutation_trans H1 Hkeys)|].
    split; [exact (Permutation_trans H2 Hkeys)|exact Ht].
Defined.

Lemma runOneCycle_without_senders_witness :
  trace_of (runOneCycle healthyCycle startedClient)
  = trace_of (ensureConnected (connectIts healthyCycle) startedClient)
    ++ [PrepareFirstMessageCall; StopReceiver; StopSender; ConnClose (Some (mkConn 1))].
Proof.
  exact (runOneCycle_without_senders healthyCycle startedClient
           eq_refl eq_refl eq_refl (or_introl eq_refl)).
Defined.

Lemma ReceiverLoop_closes_stopped_once_witness :
  stoppedCloses (fst (@ReceiverLoop sampleProtobufs idleReceiver
                        [ReadCompleted (inl [0]); CtxDoneAtLoopHead; ReadCompleted (inl [1])]))
  = 1%nat.
Proof.
  exact (proj1 (@ReceiverLoop_closes_stopped_once sampleProtobufs idleReceiver
           [ReadCompleted (inl [0]); CtxDoneAtLoopHead; ReadCompleted (inl [1])]
           (fun _ => eq_refl))).
Defined.

Lemma coordinator_lifetime_bound_witness :
  exists f, snd (coordinator startedClient silentPeer 0) = Some f /\
            10 <= f <= 10 + connShutdownTimeout startedClient + 1 /\
            (forall err, StoppingErr silentPeer = Some err -> f <= 10 + 1).
Proof.
  refine (proj1 (coordinator_lifetime_bound startedClient silentPeer 0 10 1 1
                   _ eq_refl _ eq_refl _) eq_refl).
  - discriminate.
  - discriminate.
  - discriminate.
Defined.

Lemma PrepareStart_registers_senders_witness :
  exists c' err m',
    @PrepareStart sampleOps oneAgentSettings clientWithSendersMap = Normal (c', err) /\
    senders c' = Some m' /\
    dom m' = dom (∅ : gmap InstanceUid WSSender) ∪ list_to_set (agentIds (SAgents oneAgentSettings)) /\
    url c' = url clientWithSendersMap /\ conn c' = conn clientWithSendersMap /\
    responseChain c' = responseChain clientWithSendersMap.
Proof.
  refine (@PrepareStart_registers_senders sampleOps oneAgentSettings clientWithSendersMap ∅
            (fun _ _ _ _ h => h) (fun _ _ _ _ h => h) eq_refl _).
  constructor; [|constructor].
  eexists. split; [reflexivity|].
  eexists. split; [reflexivity|]. eexists. vm_compute. reflexivity.
Defined.

Lemma tls_scheme_not_kept_across_redirect_witness :
  dialled (trace_of (tryConnectOnce (failWith errBadHandshake (Some resp307))
     (fst (fst (Start sampleParse oneAgentSettings tlsSettings (@NewWebSocket sampleOps None))))))
  = ["wss://host1/"].
Proof.
  refine (proj1 (proj2 (tls_scheme_not_kept_across_redirect sampleParse oneAgentSettings
            tlsSettings (@NewWebSocket sampleOps None) {| ServerName := "host1" |}
            urlHost1 errBadHandshake resp307 urlHost2
            eq_refl eq_refl eq_refl eq_refl eq_refl _))).
  reflexivity.
Defined.
